(** * TalentLink: proposal acceptance, contract lifecycle and notifications

    A shallow embedding of the [accounts] application of the TalentLink
    backend: the relational tables of [models.py], the [post_save]
    receivers of [models.py] and [signals.py], and the view actions of
    [views.py] that drive the proposal -> contract -> completion cascade.

    Tables are finite maps from primary key to row.  A view runs in a small
    state-and-exception monad over the database: an uncaught Python
    exception keeps the writes made so far (requests are not wrapped in a
    transaction) and is turned into an HTTP response by the framework. *)

From stdpp Require Import base strings gmap list pretty.

Local Open Scope string_scope.
Local Open Scope nat_scope.

(** ** Rows ([models.py])

    Foreign keys hold the primary key of the row they point to.  The
    [auto_now_add] timestamps and the columns of [Project] that no modelled
    operation reads (description, category, budget, duration) are left out.
    A [DecimalField] with two decimal places is a number of hundredths. *)

Module User.
Record t := mk {
  username : string;
  is_client : bool;
  is_freelancer : bool }.
End User.

Module Project.
Record t := mk {
  client : nat;
  title : string }.
End Project.

Module Proposal.
Record t := mk {
  project : nat;
  freelancer : nat;
  proposal_text : string;
  bid_amount : Z;
  status : string }.

Definition set_status (s : string) (p : t) : t :=
  mk (project p) (freelancer p) (proposal_text p) (bid_amount p) s.
End Proposal.

Module Contract.
Record t := mk {
  proposal : nat;
  client : nat;
  freelancer : nat;
  payment_amount : Z;
  status : string;
  rating : option nat;
  review : option string }.

Definition set_status (s : string) (c : t) : t :=
  mk (proposal c) (client c) (freelancer c) (payment_amount c) s
     (rating c) (review c).

Definition set_feedback (r : option nat) (v : option string) (c : t) : t :=
  mk (proposal c) (client c) (freelancer c) (payment_amount c) (status c) r v.
End Contract.

Module Message.
Record t := mk {
  contract : nat;
  sender : nat;
  receiver : nat;
  text : string;
  is_read : bool }.
End Message.

Module Notification.
Record t := mk {
  user : nat;
  message : string;
  link : option string;
  notification_type : string;
  is_read : bool }.

Definition set_is_read (b : bool) (n : t) : t :=
  mk (user n) (message n) (link n) (notification_type n) b.
End Notification.

(** ** The database *)

Module DB.
Record t := mk {
  users : gmap nat User.t;
  projects : gmap nat Project.t;
  proposals : gmap nat Proposal.t;
  contracts : gmap nat Contract.t;
  messages : gmap nat Message.t;
  notifications : gmap nat Notification.t }.

Definition set_projects (f : gmap nat Project.t → gmap nat Project.t) (db : t) : t :=
  mk (users db) (f (projects db)) (proposals db) (contracts db)
     (messages db) (notifications db).

Definition set_proposals (f : gmap nat Proposal.t → gmap nat Proposal.t) (db : t) : t :=
  mk (users db) (projects db) (f (proposals db)) (contracts db)
     (messages db) (notifications db).

Definition set_contracts (f : gmap nat Contract.t → gmap nat Contract.t) (db : t) : t :=
  mk (users db) (projects db) (proposals db) (f (contracts db))
     (messages db) (notifications db).

Definition set_messages (f : gmap nat Message.t → gmap nat Message.t) (db : t) : t :=
  mk (users db) (projects db) (proposals db) (contracts db)
     (f (messages db)) (notifications db).

Definition set_notifications
    (f : gmap nat Notification.t → gmap nat Notification.t) (db : t) : t :=
  mk (users db) (projects db) (proposals db) (contracts db)
     (messages db) (f (notifications db)).
End DB.

(** ** Profiles

    The two profile tables are read and written by the profile views and by
    [create_user_profile] only, and these touch no other table: they are a
    store of their own.  [hourly_rate] is a number of hundredths. *)

Module ClientProfile.
Record t := mk {
  user : nat;
  company_name : string;
  bio : string;
  contact_email : string }.
End ClientProfile.

Module FreelancerProfile.
Record t := mk {
  user : nat;
  portfolio : string;
  skills : string;
  hourly_rate : Z;
  availability : bool }.
End FreelancerProfile.

Module Profiles.
Record t := mk {
  client_profiles : gmap nat ClientProfile.t;
  freelancer_profiles : gmap nat FreelancerProfile.t }.

Definition set_client_profiles
    (f : gmap nat ClientProfile.t → gmap nat ClientProfile.t) (st : t) : t :=
  mk (f (client_profiles st)) (freelancer_profiles st).

Definition set_freelancer_profiles
    (f : gmap nat FreelancerProfile.t → gmap nat FreelancerProfile.t) (st : t) : t :=
  mk (client_profiles st) (f (freelancer_profiles st)).
End Profiles.

(** ** The ORM monad *)

Inductive exn : Type :=
  | DoesNotExist
  | MultipleObjectsReturned
  | IntegrityError
  | Http404.

Inductive outcome (A : Type) : Type :=
  | Return (a : A)
  | Raise (e : exn).
Arguments Return {A} a.
Arguments Raise {A} e.

#[global] Instance exn_eq_dec : EqDecision exn.
Proof. solve_decision. Defined.

Definition ORM (A : Type) : Type := DB.t → outcome A * DB.t.

#[global] Instance ORM_ret : MRet ORM := λ A a db, (Return a, db).

#[global] Instance ORM_bind : MBind ORM := λ A B f m db,
  match m db with
  | (Return a, db') => f a db'
  | (Raise e, db') => (Raise e, db')
  end.

Definition raise {A : Type} (e : exn) : ORM A := λ db, (Raise e, db).

Definition read {A : Type} (f : DB.t → A) : ORM A := λ db, (Return (f db), db).

Definition modify (f : DB.t → DB.t) : ORM unit := λ db, (Return tt, f db).

(** [try: m except e: h] for a single exception class. *)
Definition try_except {A : Type} (m : ORM A) (e : exn) (h : ORM A) : ORM A := λ db,
  match m db with
  | (Raise e', db') => if decide (e' = e) then h db' else (Raise e', db')
  | r => r
  end.

(** Following a foreign key loads the target row. *)
Definition related {A : Type} (table : DB.t → gmap nat A) (pk : nat) : ORM A := λ db,
  match table db !! pk with
  | Some row => (Return row, db)
  | None => (Raise DoesNotExist, db)
  end.

(** [QuerySet.get()]: exactly one row, or an exception. *)
Definition queryset_get {A : Type} (qs : gmap nat A) : ORM (nat * A) :=
  match map_to_list qs with
  | [] => raise DoesNotExist
  | [row] => mret row
  | _ => raise MultipleObjectsReturned
  end.

(** [QuerySet.exists()]. *)
Definition queryset_exists {A : Type} (qs : gmap nat A) : bool :=
  match map_to_list qs with
  | [] => false
  | _ => true
  end.

(** The store hands out a primary key that no row of the table uses; an
    [AutoField] is never 0. *)
Definition next_pk {A : Type} (table : gmap nat A) : nat :=
  fresh ({[0]} ∪ dom table).

(** [Contract.objects.filter(proposal=...)]. *)
Definition Contract_objects_filter_proposal (proposal_pk : nat) (db : DB.t)
    : gmap nat Contract.t :=
  filter (λ row, Contract.proposal row.2 = proposal_pk) (DB.contracts db).

(** [Notification.objects.create(...)]: no receiver listens to [Notification]. *)
Definition Notification_objects_create (n : Notification.t) : ORM nat := λ db,
  let pk := next_pk (DB.notifications db) in
  (Return pk, DB.set_notifications (insert pk n) db).

(** [ClientProfile.objects.filter(user=...)]. *)
Definition ClientProfile_objects_filter_user (user_pk : nat) (st : Profiles.t)
    : gmap nat ClientProfile.t :=
  filter (λ row, ClientProfile.user row.2 = user_pk) (Profiles.client_profiles st).

(** [ClientProfile.objects.create(...)]: [user] is a [OneToOneField]. *)
Definition ClientProfile_objects_create (instance : ClientProfile.t)
    : Profiles.t → outcome (nat * ClientProfile.t) * Profiles.t := λ st,
  if queryset_exists (ClientProfile_objects_filter_user (ClientProfile.user instance) st)
  then (Raise IntegrityError, st)
  else
    let pk := next_pk (Profiles.client_profiles st) in
    (Return (pk, instance), Profiles.set_client_profiles (insert pk instance) st).

(** [ClientProfile.objects.get_or_create(user=..., defaults=...)]. *)
Definition ClientProfile_objects_get_or_create
    (user_pk : nat) (defaults : ClientProfile.t)
    : Profiles.t → outcome (nat * ClientProfile.t * bool) * Profiles.t := λ st,
  match map_to_list (ClientProfile_objects_filter_user user_pk st) with
  | [] =>
      match ClientProfile_objects_create defaults st with
      | (Return row, st') => (Return (row, true), st')
      | (Raise e, st') => (Raise e, st')
      end
  | [row] => (Return (row, false), st)
  | _ => (Raise MultipleObjectsReturned, st)
  end.

(** [FreelancerProfile.objects.filter(user=...)]. *)
Definition FreelancerProfile_objects_filter_user (user_pk : nat) (st : Profiles.t)
    : gmap nat FreelancerProfile.t :=
  filter (λ row, FreelancerProfile.user row.2 = user_pk)
         (Profiles.freelancer_profiles st).

(** [FreelancerProfile.objects.create(...)]: [user] is a [OneToOneField]. *)
Definition FreelancerProfile_objects_create (instance : FreelancerProfile.t)
    : Profiles.t → outcome (nat * FreelancerProfile.t) * Profiles.t := λ st,
  if queryset_exists
       (FreelancerProfile_objects_filter_user (FreelancerProfile.user instance) st)
  then (Raise IntegrityError, st)
  else
    let pk := next_pk (Profiles.freelancer_profiles st) in
    (Return (pk, instance), Profiles.set_freelancer_profiles (insert pk instance) st).

(** [FreelancerProfile.objects.get_or_create(user=..., defaults=...)]. *)
Definition FreelancerProfile_objects_get_or_create
    (user_pk : nat) (defaults : FreelancerProfile.t)
    : Profiles.t → outcome (nat * FreelancerProfile.t * bool) * Profiles.t := λ st,
  match map_to_list (FreelancerProfile_objects_filter_user user_pk st) with
  | [] =>
      match FreelancerProfile_objects_create defaults st with
      | (Return row, st') => (Return (row, true), st')
      | (Raise e, st') => (Raise e, st')
      end
  | [row] => (Return (row, false), st)
  | _ => (Raise MultipleObjectsReturned, st)
  end.

(** ** [models.py]: model methods and receivers *)

Module models.

(** [notify_on_contract_status_change], connected to [post_save] of
    [Contract]: it looks at the status of the saved instance only. *)
Definition notify_on_contract_status_change (pk : nat) (instance : Contract.t)
    : ORM unit :=
  if decide (Contract.status instance = "Completed") then
    (* [instance.proposal.project] is loaded once and cached on the instance *)
    proposal ← related DB.proposals (Contract.proposal instance);
    project ← related DB.projects (Proposal.project proposal);
    _ ← Notification_objects_create
          (Notification.mk (Contract.client instance)
             ("Your project '" +:+ Project.title project
                +:+ "' has been marked as completed.")
             (Some ("/contracts/" +:+ pretty pk +:+ "/"))
             "project" false);
    _ ← Notification_objects_create
          (Notification.mk (Contract.freelancer instance)
             ("You have successfully completed the project '"
                +:+ Project.title project +:+ "'.")
             (Some ("/contracts/" +:+ pretty pk +:+ "/"))
             "project" false);
    mret tt
  else mret tt.

(** The receivers of [post_save] for [Contract]: [signals.py] has none. *)
Definition Contract_post_save (pk : nat) (instance : Contract.t) (created : bool)
    : ORM unit :=
  notify_on_contract_status_change pk instance.

(** [instance.save()] on a loaded [Contract]: writes every column of the
    row, then sends [post_save]. *)
Definition Contract_save (pk : nat) (instance : Contract.t) : ORM unit :=
  _ ← modify (DB.set_contracts (insert pk instance));
  Contract_post_save pk instance false.

(** [Contract.objects.create(...)]. [proposal] is a [OneToOneField], so the
    store refuses a second contract for the same proposal. *)
Definition Contract_objects_create (instance : Contract.t) : ORM (nat * Contract.t) :=
  qs ← read (Contract_objects_filter_proposal (Contract.proposal instance));
  if queryset_exists qs then raise IntegrityError
  else
    pk ← read (λ db, next_pk (DB.contracts db));
    _ ← modify (DB.set_contracts (insert pk instance));
    _ ← Contract_post_save pk instance true;
    mret (pk, instance).

(** [Contract.objects.get_or_create(proposal=..., defaults=...)]. *)
Definition Contract_objects_get_or_create (proposal_pk : nat) (defaults : Contract.t)
    : ORM (nat * Contract.t * bool) :=
  try_except
    (qs ← read (Contract_objects_filter_proposal proposal_pk);
     row ← queryset_get qs;
     mret (row, false))
    DoesNotExist
    (row ← Contract_objects_create defaults;
     mret (row, true)).

(** [hasattr(instance, 'contract')] on a [Proposal]: the reverse one-to-one
    accessor queries the contract of the proposal; [hasattr] swallows the
    [RelatedObjectDoesNotExist] only.  The instance is the one the caller
    has just loaded, so the accessor has no cached value to return. *)
Definition hasattr_contract (proposal_pk : nat) : ORM bool :=
  try_except
    (qs ← read (Contract_objects_filter_proposal proposal_pk);
     _ ← queryset_get qs;
     mret true)
    DoesNotExist
    (mret false).

(** [create_contract_on_accept] of [models.py]. *)
Definition create_contract_on_accept (pk : nat) (instance : Proposal.t) : ORM unit :=
  if decide (Proposal.status instance = "Accepted") then
    has ← hasattr_contract pk;
    if (has : bool) then mret tt
    else
      project ← related DB.projects (Proposal.project instance);
      _ ← Contract_objects_create
            (Contract.mk pk (Project.client project) (Proposal.freelancer instance)
               (Proposal.bid_amount instance) "Active" None None);
      mret tt
  else mret tt.

(** [create_notification_on_message] of [models.py]. *)
Definition create_notification_on_message
    (pk : nat) (instance : Message.t) (created : bool) : ORM unit :=
  if created then
    sender ← related DB.users (Message.sender instance);
    _ ← Notification_objects_create
          (Notification.mk (Message.receiver instance)
             ("New message from " +:+ User.username sender)
             (Some ("/contracts/" +:+ pretty (Message.contract instance) +:+ "/chat"))
             "message" false);
    mret tt
  else mret tt.

End models.

(** ** [signals.py]: the second set of receivers *)

Module signals.

(** [create_contract_on_accept] of [signals.py]. *)
Definition create_contract_on_accept (pk : nat) (instance : Proposal.t) : ORM unit :=
  if decide (Proposal.status instance = "Accepted") then
    qs ← read (Contract_objects_filter_proposal pk);
    if queryset_exists qs then mret tt
    else
      project ← related DB.projects (Proposal.project instance);
      _ ← models.Contract_objects_create
            (Contract.mk pk (Project.client project) (Proposal.freelancer instance)
               (Proposal.bid_amount instance) "Active" None None);
      mret tt
  else mret tt.

(** [create_notification_on_message] of [signals.py]: the notification
    keeps the default type. *)
Definition create_notification_on_message
    (pk : nat) (instance : Message.t) (created : bool) : ORM unit :=
  if created then
    sender ← related DB.users (Message.sender instance);
    _ ← Notification_objects_create
          (Notification.mk (Message.receiver instance)
             ("New message from " +:+ User.username sender)
             (Some ("/contracts/" +:+ pretty (Message.contract instance) +:+ "/chat"))
             "system" false);
    mret tt
  else mret tt.

(** [create_user_profile], connected to [post_save] of [User].  The email
    column of the saved user, which [User.t] leaves out, comes beside the
    instance. *)
Definition create_user_profile
    (pk : nat) (instance : User.t) (email : string) (created : bool)
    : Profiles.t → outcome unit * Profiles.t := λ st,
  if created then
    if User.is_freelancer instance then
      match FreelancerProfile_objects_create
              (FreelancerProfile.mk pk "" "" 0 true) st with
      | (Return _, st') => (Return tt, st')
      | (Raise e, st') => (Raise e, st')
      end
    else if User.is_client instance then
      match ClientProfile_objects_create
              (ClientProfile.mk pk (User.username instance) "" email) st with
      | (Return _, st') => (Return tt, st')
      | (Raise e, st') => (Raise e, st')
      end
    else (Return tt, st)
  else (Return tt, st).

End signals.

(** ** Signal dispatch

    [models.py] is always loaded, so its receivers are always connected, and
    first.  [signals.py] is connected only when the application's [ready()]
    imports it; [apps.py] is not part of the sources at hand, so this is a
    parameter, [signals_imported]. *)

Definition Proposal_post_save (signals_imported : bool)
    (pk : nat) (instance : Proposal.t) : ORM unit :=
  _ ← models.create_contract_on_accept pk instance;
  if signals_imported then signals.create_contract_on_accept pk instance
  else mret tt.

(** [instance.save()] on a [Proposal]. *)
Definition Proposal_save (signals_imported : bool)
    (pk : nat) (instance : Proposal.t) : ORM unit :=
  _ ← modify (DB.set_proposals (insert pk instance));
  Proposal_post_save signals_imported pk instance.

Definition Message_post_save (signals_imported : bool)
    (pk : nat) (instance : Message.t) (created : bool) : ORM unit :=
  _ ← models.create_notification_on_message pk instance created;
  if signals_imported then signals.create_notification_on_message pk instance created
  else mret tt.

(** Saving a new [Message] (what [serializer.save(...)] does). *)
Definition Message_objects_create (signals_imported : bool) (instance : Message.t)
    : ORM nat :=
  pk ← read (λ db, next_pk (DB.messages db));
  _ ← modify (DB.set_messages (insert pk instance));
  _ ← Message_post_save signals_imported pk instance true;
  mret pk.

(** [instance.save()] on a [Notification]: nothing listens. *)
Definition Notification_save (pk : nat) (instance : Notification.t) : ORM unit :=
  modify (DB.set_notifications (insert pk instance)).

(** Saving a new [Proposal] (what [serializer.save(...)] does): the row is
    written under a new key and [post_save] is sent. *)
Definition Proposal_objects_create (signals_imported : bool) (instance : Proposal.t)
    : ORM nat :=
  pk ← read (λ db, next_pk (DB.proposals db));
  _ ← Proposal_save signals_imported pk instance;
  mret pk.

(** [queryset.update(is_read=...)] on notifications: one statement that
    writes the column on the rows of the queryset, sends no signal and
    returns the number of rows. *)
Definition Notification_queryset_update_is_read
    (qs : gmap nat Notification.t) (value : bool) : ORM nat :=
  _ ← modify (DB.set_notifications
                (λ table, (Notification.set_is_read value <$> qs) ∪ table));
  mret (size qs).

(** ** Requests and responses *)

Module Request.
Record t := mk { user : nat }.
End Request.

Module Response.
Inductive body : Type :=
  | error (msg : string)
  | detail (msg : string)
  | message (msg : string)
  | accepted (msg : string) (contract_id : nat)
  | contract_data (pk : nat) (c : Contract.t)
  | message_data (pk : nat) (m : Message.t)
  | server_error (e : exn).

Record t := mk { data : body; status : nat }.
End Response.

Module status.
Definition HTTP_200_OK : nat := 200.
Definition HTTP_201_CREATED : nat := 201.
Definition HTTP_400_BAD_REQUEST : nat := 400.
Definition HTTP_401_UNAUTHORIZED : nat := 401.
Definition HTTP_403_FORBIDDEN : nat := 403.
Definition HTTP_404_NOT_FOUND : nat := 404.
Definition HTTP_500_INTERNAL_SERVER_ERROR : nat := 500.
End status.

(** What the framework does around an action whose permission class is
    [IsAuthenticated]: the request's user must be a row of [User]; [Http404]
    becomes a 404 response and any other uncaught exception a 500. *)
Definition dispatch (request : Request.t) (action : User.t → ORM Response.t)
    : DB.t → Response.t * DB.t := λ db,
  match DB.users db !! Request.user request with
  | None =>
      (Response.mk (Response.detail "Authentication credentials were not provided.")
         status.HTTP_401_UNAUTHORIZED, db)
  | Some user =>
      match action user db with
      | (Return response, db') => (response, db')
      | (Raise Http404, db') =>
          (Response.mk (Response.detail "Not found.") status.HTTP_404_NOT_FOUND, db')
      | (Raise e, db') =>
          (Response.mk (Response.server_error e)
             status.HTTP_500_INTERNAL_SERVER_ERROR, db')
      end
  end.

(** [QuerySet.get(pk=pk)] inside [get_object]: a miss is [Http404]. *)
Definition get_object {A : Type} (qs : gmap nat A) (pk : nat) : ORM A :=
  match qs !! pk with
  | Some row => mret row
  | None => raise Http404
  end.

(** ** [views.py]

    A request carries its authenticated user and no query string, so the
    filter backends leave every queryset as [get_queryset] returns it.  The
    serializers are not part of the sources at hand: an action that saves
    through one takes the validated data as an argument. *)

Module views.

(** [create_notification(user, message, link)]. *)
Definition create_notification (user : nat) (message link : string) : ORM unit :=
  _ ← Notification_objects_create
        (Notification.mk user message (Some link) "system" false);
  mret tt.

Section actions.
Variable signals_imported : bool.

(** [ProposalViewSet.get_queryset]. *)
Definition ProposalViewSet_get_queryset (request : Request.t) (user : User.t)
    (db : DB.t) : gmap nat Proposal.t :=
  if User.is_client user then
    filter (λ row, Project.client <$> DB.projects db !! Proposal.project row.2
                   = Some (Request.user request))
           (DB.proposals db)
  else if User.is_freelancer user then
    filter (λ row, Proposal.freelancer row.2 = Request.user request)
           (DB.proposals db)
  else ∅.

(** [ProposalViewSet.accept]. *)
Definition ProposalViewSet_accept (request : Request.t) (pk : nat)
    : DB.t → Response.t * DB.t :=
  dispatch request (λ user,
    qs ← read (ProposalViewSet_get_queryset request user);
    proposal ← get_object qs pk;
    project ← related DB.projects (Proposal.project proposal);
    if decide (Project.client project ≠ Request.user request) then
      mret (Response.mk (Response.error "Not allowed") status.HTTP_403_FORBIDDEN)
    else if decide (Proposal.status proposal ≠ "Pending") then
      mret (Response.mk (Response.error "Proposal not pending")
              status.HTTP_400_BAD_REQUEST)
    else
      let proposal := Proposal.set_status "Accepted" proposal in
      _ ← Proposal_save signals_imported pk proposal;
      created ← models.Contract_objects_get_or_create pk
                  (Contract.mk pk (Project.client project)
                     (Proposal.freelancer proposal)
                     (Proposal.bid_amount proposal) "Active" None None);
      let contract_pk : nat := created.1.1 in
      _ ← create_notification (Proposal.freelancer proposal)
            ("Your proposal for project '" +:+ Project.title project
               +:+ "' has been accepted!")
            ("/contracts/" +:+ pretty contract_pk +:+ "/");
      mret (Response.mk (Response.accepted "Proposal accepted" contract_pk)
              status.HTTP_200_OK)).

(** [ContractViewSet.get_queryset]. *)
Definition ContractViewSet_get_queryset (request : Request.t) (user : User.t)
    (db : DB.t) : gmap nat Contract.t :=
  if User.is_client user then
    filter (λ row, Contract.client row.2 = Request.user request) (DB.contracts db)
  else if User.is_freelancer user then
    filter (λ row, Contract.freelancer row.2 = Request.user request) (DB.contracts db)
  else ∅.

(** [ContractViewSet.mark_completed]: the contract is fetched with
    [get_object_or_404(Contract, pk=pk)], not through [get_queryset]. *)
Definition ContractViewSet_mark_completed (request : Request.t) (pk : nat)
    : DB.t → Response.t * DB.t :=
  dispatch request (λ user,
    contract ← try_except (related DB.contracts pk) DoesNotExist (raise Http404);
    if decide (Contract.status contract = "Completed") then
      mret (Response.mk (Response.detail "Contract already completed.")
              status.HTTP_400_BAD_REQUEST)
    else
      let contract := Contract.set_status "Completed" contract in
      _ ← models.Contract_save pk contract;
      proposal ← related DB.proposals (Contract.proposal contract);
      project ← related DB.projects (Proposal.project proposal);
      _ ← Notification_objects_create
            (Notification.mk (Contract.freelancer contract)
               ("🎉 Your contract for '" +:+ Project.title project
                  +:+ "' has been marked as completed!")
               None "system" false);
      mret (Response.mk (Response.contract_data pk contract) status.HTTP_200_OK)).

(** [ContractViewSet.partial_update], inherited from [ModelViewSet]: the
    instance comes from [get_queryset], the serializer writes the validated
    fields (here the client's rating and review) and calls [save()]. *)
Definition ContractViewSet_partial_update (request : Request.t) (pk : nat)
    (rating : option nat) (review : option string) : DB.t → Response.t * DB.t :=
  dispatch request (λ user,
    qs ← read (ContractViewSet_get_queryset request user);
    contract ← get_object qs pk;
    let contract := Contract.set_feedback rating review contract in
    _ ← models.Contract_save pk contract;
    mret (Response.mk (Response.contract_data pk contract) status.HTTP_200_OK)).

(** The validated data of a [MessageSerializer]: the serializer's relational
    fields have resolved [contract] and [receiver] to rows of the database. *)
Record MessageData := {
  data_contract : nat;
  data_receiver : nat;
  data_text : string }.

(** [MessageViewSet.perform_create]. *)
Definition MessageViewSet_perform_create (request : Request.t) (data : MessageData)
    : ORM (nat * Message.t) :=
  let message :=
    Message.mk (data_contract data) (Request.user request) (data_receiver data)
               (data_text data) false in
  pk ← Message_objects_create signals_imported message;
  contract ← related DB.contracts (Message.contract message);
  let recipient :=
    if decide (Message.sender message = Contract.client contract)
    then Contract.freelancer contract
    else Contract.client contract in
  proposal ← related DB.proposals (Contract.proposal contract);
  project ← related DB.projects (Proposal.project proposal);
  _ ← create_notification recipient
        ("New message in your contract chat for '" +:+ Project.title project +:+ "'.")
        ("/contracts/" +:+ pretty (Message.contract message) +:+ "/messages/");
  mret (pk, message).

(** [MessageViewSet.create], inherited from [ModelViewSet]. *)
Definition MessageViewSet_create (request : Request.t) (data : MessageData)
    : DB.t → Response.t * DB.t :=
  dispatch request (λ user,
    saved ← MessageViewSet_perform_create request data;
    mret (Response.mk (Response.message_data saved.1 saved.2)
            status.HTTP_201_CREATED)).

(** [NotificationViewSet.get_queryset]. *)
Definition NotificationViewSet_get_queryset (request : Request.t) (db : DB.t)
    : gmap nat Notification.t :=
  filter (λ row, Notification.user row.2 = Request.user request)
         (DB.notifications db).

(** [NotificationViewSet.mark_as_read]. *)
Definition NotificationViewSet_mark_as_read (request : Request.t) (pk : nat)
    : DB.t → Response.t * DB.t :=
  dispatch request (λ user,
    try_except
      (qs ← read (NotificationViewSet_get_queryset request);
       notification ← match qs !! pk with
                      | Some row => mret row
                      | None => raise DoesNotExist
                      end;
       let notification := Notification.set_is_read true notification in
       _ ← Notification_save pk notification;
       mret (Response.mk (Response.message "Notification marked as read ✅")
               status.HTTP_200_OK))
      DoesNotExist
      (mret (Response.mk (Response.error "Notification not found")
               status.HTTP_404_NOT_FOUND))).

(** [ProjectViewSet.get_queryset]. *)
Definition ProjectViewSet_get_queryset (request : Request.t) (user : User.t)
    (db : DB.t) : gmap nat Project.t :=
  if User.is_client user then
    filter (λ row, Project.client row.2 = Request.user request) (DB.projects db)
  else if User.is_freelancer user then DB.projects db
  else ∅.

(** [ProjectViewSet.perform_create]: of the validated data the model keeps
    the title; [client] is always the requesting user. *)
Definition ProjectViewSet_perform_create (request : Request.t) (title : string)
    : ORM nat :=
  pk ← read (λ db, next_pk (DB.projects db));
  _ ← modify (DB.set_projects (insert pk (Project.mk (Request.user request) title)));
  _ ← create_notification (Request.user request)
        ("Your project '" +:+ title +:+ "' has been successfully posted!")
        ("/projects/" +:+ pretty pk +:+ "/");
  mret pk.

(** The validated data of a [ProposalSerializer]: the project is a row of
    the database; a status that the data does not give is the model's
    default. *)
Record ProposalData := {
  data_project : nat;
  data_proposal_text : string;
  data_bid_amount : Z;
  data_status : option string }.

(** [ProposalViewSet.perform_create]. *)
Definition ProposalViewSet_perform_create (request : Request.t) (data : ProposalData)
    : ORM nat :=
  let proposal :=
    Proposal.mk (data_project data) (Request.user request) (data_proposal_text data)
                (data_bid_amount data) (default "Pending" (data_status data)) in
  pk ← Proposal_objects_create signals_imported proposal;
  project ← related DB.projects (Proposal.project proposal);
  _ ← create_notification (Project.client project)
        ("New proposal submitted for your project '" +:+ Project.title project +:+ "'.")
        ("/projects/" +:+ pretty (Proposal.project proposal) +:+ "/");
  mret pk.

(** [MessageViewSet.get_queryset]: the union of two querysets. *)
Definition MessageViewSet_get_queryset (request : Request.t) (db : DB.t)
    : gmap nat Message.t :=
  filter (λ row, Contract.client <$> DB.contracts db !! Message.contract row.2
                 = Some (Request.user request))
         (DB.messages db)
  ∪ filter (λ row, Contract.freelancer <$> DB.contracts db !! Message.contract row.2
                   = Some (Request.user request))
           (DB.messages db).

(** The queryset that [NotificationViewSet.unread] serializes. *)
Definition NotificationViewSet_unread (request : Request.t) (db : DB.t)
    : gmap nat Notification.t :=
  filter (λ row, Notification.is_read row.2 = false)
         (NotificationViewSet_get_queryset request db).

(** The queryset that [NotificationViewSet.read] serializes. *)
Definition NotificationViewSet_read (request : Request.t) (db : DB.t)
    : gmap nat Notification.t :=
  filter (λ row, Notification.is_read row.2 = true)
         (NotificationViewSet_get_queryset request db).

(** [NotificationViewSet.mark_all_as_read]. *)
Definition NotificationViewSet_mark_all_as_read (request : Request.t)
    : DB.t → Response.t * DB.t :=
  dispatch request (λ user,
    qs ← read (NotificationViewSet_unread request);
    updated_count ← Notification_queryset_update_is_read qs true;
    mret (Response.mk
            (Response.message (pretty (updated_count : nat)
                                 +:+ " notifications marked as read ✅"))
            status.HTTP_200_OK)).

(** [ClientProfileView.get_object]: the requesting user's email comes beside
    the user row. *)
Definition ClientProfileView_get_object
    (request : Request.t) (user : User.t) (email : string)
    : Profiles.t → outcome (nat * ClientProfile.t) * Profiles.t := λ st,
  match ClientProfile_objects_get_or_create (Request.user request)
          (ClientProfile.mk (Request.user request) (User.username user) "" email) st
  with
  | (Return found, st') => (Return found.1, st')
  | (Raise e, st') => (Raise e, st')
  end.

(** [FreelancerProfileView.get_object]. *)
Definition FreelancerProfileView_get_object (request : Request.t)
    : Profiles.t → outcome (nat * FreelancerProfile.t) * Profiles.t := λ st,
  match FreelancerProfile_objects_get_or_create (Request.user request)
          (FreelancerProfile.mk (Request.user request) "" "" 0 true) st
  with
  | (Return found, st') => (Return found.1, st')
  | (Raise e, st') => (Raise e, st')
  end.

End actions.
End views.


(** ** Vocabulary of the statements *)

(** The contract that the receivers and [accept] build for a proposal. *)
Definition new_contract (pk : nat) (instance : Proposal.t) (project : Project.t)
    : Contract.t :=
  Contract.mk pk (Project.client project) (Proposal.freelancer instance)
    (Proposal.bid_amount instance) "Active" None None.

(** The notification that [accept] sends to the freelancer. *)
Definition acceptance_notification (p : Proposal.t) (pr : Project.t) (contract_pk : nat)
    : Notification.t :=
  Notification.mk (Proposal.freelancer p)
    ("Your proposal for project '" +:+ Project.title pr +:+ "' has been accepted!")
    (Some ("/contracts/" +:+ pretty contract_pk +:+ "/")) "system" false.

(** The contract id carried by a successful response of [accept]. *)
Definition accepted_contract_id (response : Response.t) : option nat :=
  match Response.data response with
  | Response.accepted _ contract_id =>
      if decide (Response.status response = status.HTTP_200_OK)
      then Some contract_id else None
  | _ => None
  end.

(** Saving the proposal [pk] once per instance of a list, in order. *)
Fixpoint save_each (signals_imported : bool) (pk : nat) (instances : list Proposal.t)
    : ORM unit :=
  match instances with
  | [] => mret tt
  | instance :: rest =>
      _ ← Proposal_save signals_imported pk instance;
      save_each signals_imported pk rest
  end.

(** A small marketplace: Alice and Carol are clients, Bob and Dave are
    freelancers; Alice owns the project, Bob has a pending proposal on it. *)
Definition alice : nat := 1.
Definition bob : nat := 2.
Definition carol : nat := 3.
Definition dave : nat := 4.

Definition example_db : DB.t :=
  DB.mk
    (<[alice := User.mk "alice" true false]>
       (<[bob := User.mk "bob" false true]>
          (<[carol := User.mk "carol" true false]>
             (<[dave := User.mk "dave" false true]> ∅))))
    {[1 := Project.mk alice "Site"]}
    {[1 := Proposal.mk 1 bob "I can do it" 10000 "Pending"]}
    ∅ ∅ ∅.

(** How many notifications are addressed to a user. *)
Definition addressed_to (user : nat) (db : DB.t) : nat :=
  size (filter (λ row, Notification.user row.2 = user) (DB.notifications db)).

(** The example after Alice has accepted Bob's proposal: contract 1 is
    active. *)
Definition example_active_db : DB.t :=
  (views.ProposalViewSet_accept true (Request.mk alice) 1 example_db).2.

(** The example after the contract has been marked as completed. *)
Definition example_completed_db : DB.t :=
  (views.ContractViewSet_mark_completed (Request.mk alice) 1 example_active_db).2.

(** The database with one more notification. *)
Definition notify (n : Notification.t) (db : DB.t) : DB.t :=
  DB.set_notifications (insert (next_pk (DB.notifications db)) n) db.

(** The two notifications of [notify_on_contract_status_change] and the one
    of [mark_completed]. *)
Definition completed_for_client (pk : nat) (c : Contract.t) (pr : Project.t)
    : Notification.t :=
  Notification.mk (Contract.client c)
    ("Your project '" +:+ Project.title pr +:+ "' has been marked as completed.")
    (Some ("/contracts/" +:+ pretty pk +:+ "/")) "project" false.

Definition completed_for_freelancer (pk : nat) (c : Contract.t) (pr : Project.t)
    : Notification.t :=
  Notification.mk (Contract.freelancer c)
    ("You have successfully completed the project '" +:+ Project.title pr +:+ "'.")
    (Some ("/contracts/" +:+ pretty pk +:+ "/")) "project" false.

Definition completed_by_view (c : Contract.t) (pr : Project.t) : Notification.t :=
  Notification.mk (Contract.freelancer c)
    ("🎉 Your contract for '" +:+ Project.title pr
       +:+ "' has been marked as completed!")
    None "system" false.

(** The notification of a [create_notification_on_message] receiver; the two
    receivers differ in the type they give it. *)
Definition message_notice (notification_type : string) (m : Message.t) (sender : User.t)
    : Notification.t :=
  Notification.mk (Message.receiver m)
    ("New message from " +:+ User.username sender)
    (Some ("/contracts/" +:+ pretty (Message.contract m) +:+ "/chat"))
    notification_type false.

(** The notification of [MessageViewSet.perform_create]. *)
Definition chat_notice (recipient : nat) (m : Message.t) (pr : Project.t)
    : Notification.t :=
  Notification.mk recipient
    ("New message in your contract chat for '" +:+ Project.title pr +:+ "'.")
    (Some ("/contracts/" +:+ pretty (Message.contract m) +:+ "/messages/"))
    "system" false.

(** What the connected [post_save] receivers of [Message] add. *)
Definition message_receivers_notify (signals_imported : bool) (m : Message.t)
    (sender : User.t) (db : DB.t) : DB.t :=
  if signals_imported
  then notify (message_notice "system" m sender)
         (notify (message_notice "message" m sender) db)
  else notify (message_notice "message" m sender) db.

(** The row that [ProposalViewSet.perform_create] saves. *)
Definition submitted_proposal (request : Request.t) (data : views.ProposalData)
    : Proposal.t :=
  Proposal.mk (views.data_project data) (Request.user request)
    (views.data_proposal_text data) (views.data_bid_amount data)
    (default "Pending" (views.data_status data)).

(** The notification of [ProposalViewSet.perform_create]. *)
Definition proposal_notice (project_pk : nat) (pr : Project.t) : Notification.t :=
  Notification.mk (Project.client pr)
    ("New proposal submitted for your project '" +:+ Project.title pr +:+ "'.")
    (Some ("/projects/" +:+ pretty project_pk +:+ "/")) "system" false.

(** The notification of [ProjectViewSet.perform_create]. *)
Definition project_notice (user pk : nat) (title : string) : Notification.t :=
  Notification.mk user
    ("Your project '" +:+ title +:+ "' has been successfully posted!")
    (Some ("/projects/" +:+ pretty pk +:+ "/")) "system" false.

(** What [mark_all_as_read] does to one row, for a given user. *)
Definition read_by (user : nat) (n : Notification.t) : Notification.t :=
  if decide (Notification.user n = user) then Notification.set_is_read true n else n.

(** No profile at all. *)
Definition no_profiles : Profiles.t := Profiles.mk ∅ ∅.
(** * Properties *)

(** ** Primary keys and querysets *)

Lemma next_pk_fresh {A : Type} (table : gmap nat A) : table !! next_pk table = None.
Proof.
  apply not_elem_of_dom. unfold next_pk.
  pose proof (is_fresh ({[0]} ∪ dom table)) as Hfresh. set_solver.
Qed.

Lemma next_pk_nonzero {A : Type} (table : gmap nat A) : next_pk table ≠ 0.
Proof.
  unfold next_pk. pose proof (is_fresh ({[0]} ∪ dom table)) as Hfresh. set_solver.
Qed.

Lemma queryset_get_empty {A : Type} (db : DB.t) :
  queryset_get (∅ : gmap nat A) db = (Raise DoesNotExist, db).
Proof. unfold queryset_get. by rewrite map_to_list_empty. Qed.

Lemma queryset_get_singleton {A : Type} (k : nat) (a : A) (db : DB.t) :
  queryset_get ({[k := a]} : gmap nat A) db = (Return (k, a), db).
Proof. unfold queryset_get. by rewrite map_to_list_singleton. Qed.

Lemma queryset_exists_empty {A : Type} : queryset_exists (∅ : gmap nat A) = false.
Proof. unfold queryset_exists. by rewrite map_to_list_empty. Qed.

Lemma queryset_exists_singleton {A : Type} (k : nat) (a : A) :
  queryset_exists ({[k := a]} : gmap nat A) = true.
Proof. unfold queryset_exists. by rewrite map_to_list_singleton. Qed.

(** A queryset with at most one row is empty or a singleton. *)
Lemma at_most_one {A : Type} (qs : gmap nat A) :
  size qs ≤ 1 → qs = ∅ ∨ ∃ k a, qs = {[k := a]}.
Proof.
  rewrite <- length_map_to_list. intros Hlen.
  rewrite <- (list_to_map_to_list qs).
  destruct (map_to_list qs) as [|[k a] [|]]; simpl in *.
  - by left.
  - right. exists k, a. by rewrite insert_empty.
  - lia.
Qed.

Lemma filter_proposal_created (pk k : nat) (c : Contract.t) (db : DB.t) :
  Contract_objects_filter_proposal pk db = ∅ →
  Contract.proposal c = pk →
  Contract_objects_filter_proposal pk (DB.set_contracts (insert k c) db) = {[k := c]}.
Proof.
  unfold Contract_objects_filter_proposal. cbn. intros Hnone Hpk.
  rewrite map_filter_insert_True by done. by rewrite Hnone, insert_empty.
Qed.

(** ** The receivers, case by case *)

Ltac orm :=
  unfold mbind, ORM_bind, mret, ORM_ret, read, modify, raise, related, try_except;
  cbn.

Lemma notify_other_status (pk : nat) (c : Contract.t) (db : DB.t) :
  Contract.status c ≠ "Completed" →
  models.notify_on_contract_status_change pk c db = (Return tt, db).
Proof.
  intros Hs. unfold models.notify_on_contract_status_change.
  by rewrite decide_False.
Qed.

Lemma Contract_objects_create_fresh (c : Contract.t) (db : DB.t) :
  Contract_objects_filter_proposal (Contract.proposal c) db = ∅ →
  Contract.status c ≠ "Completed" →
  models.Contract_objects_create c db
  = (Return (next_pk (DB.contracts db), c),
     DB.set_contracts (insert (next_pk (DB.contracts db)) c) db).
Proof.
  intros Hnone Hs. unfold models.Contract_objects_create. orm.
  rewrite Hnone, queryset_exists_empty.
  unfold models.Contract_post_save. by rewrite notify_other_status.
Qed.

Lemma hasattr_contract_none (pk : nat) (db : DB.t) :
  Contract_objects_filter_proposal pk db = ∅ →
  models.hasattr_contract pk db = (Return false, db).
Proof.
  intros Hnone. unfold models.hasattr_contract. orm.
  by rewrite Hnone, queryset_get_empty.
Qed.

Lemma hasattr_contract_one (pk k : nat) (c : Contract.t) (db : DB.t) :
  Contract_objects_filter_proposal pk db = {[k := c]} →
  models.hasattr_contract pk db = (Return true, db).
Proof.
  intros Hone. unfold models.hasattr_contract. orm.
  by rewrite Hone, queryset_get_singleton.
Qed.

Lemma models_create_contract_on_accept_creates
    (pk : nat) (p : Proposal.t) (pr : Project.t) (db : DB.t) :
  Proposal.status p = "Accepted" →
  Contract_objects_filter_proposal pk db = ∅ →
  DB.projects db !! Proposal.project p = Some pr →
  models.create_contract_on_accept pk p db
  = (Return tt,
     DB.set_contracts (insert (next_pk (DB.contracts db)) (new_contract pk p pr)) db).
Proof.
  intros Hs Hnone Hpr. unfold models.create_contract_on_accept.
  rewrite decide_True by done. orm.
  rewrite hasattr_contract_none by done. cbn. rewrite Hpr.
  by rewrite Contract_objects_create_fresh.
Qed.

Lemma models_create_contract_on_accept_keeps
    (pk k : nat) (p : Proposal.t) (c : Contract.t) (db : DB.t) :
  Contract_objects_filter_proposal pk db = {[k := c]} →
  models.create_contract_on_accept pk p db = (Return tt, db).
Proof.
  intros Hone. unfold models.create_contract_on_accept.
  case_decide; [|done]. orm. by erewrite hasattr_contract_one.
Qed.

Lemma models_create_contract_on_accept_other_status
    (pk : nat) (p : Proposal.t) (db : DB.t) :
  Proposal.status p ≠ "Accepted" →
  models.create_contract_on_accept pk p db = (Return tt, db).
Proof. intros Hs. unfold models.create_contract_on_accept. by rewrite decide_False. Qed.

Lemma signals_create_contract_on_accept_creates
    (pk : nat) (p : Proposal.t) (pr : Project.t) (db : DB.t) :
  Proposal.status p = "Accepted" →
  Contract_objects_filter_proposal pk db = ∅ →
  DB.projects db !! Proposal.project p = Some pr →
  signals.create_contract_on_accept pk p db
  = (Return tt,
     DB.set_contracts (insert (next_pk (DB.contracts db)) (new_contract pk p pr)) db).
Proof.
  intros Hs Hnone Hpr. unfold signals.create_contract_on_accept.
  rewrite decide_True by done. orm.
  rewrite Hnone, queryset_exists_empty, Hpr.
  by rewrite Contract_objects_create_fresh.
Qed.

Lemma signals_create_contract_on_accept_keeps
    (pk k : nat) (p : Proposal.t) (c : Contract.t) (db : DB.t) :
  Contract_objects_filter_proposal pk db = {[k := c]} →
  signals.create_contract_on_accept pk p db = (Return tt, db).
Proof.
  intros Hone. unfold signals.create_contract_on_accept.
  case_decide; [|done]. orm. by rewrite Hone, queryset_exists_singleton.
Qed.

Lemma signals_create_contract_on_accept_other_status
    (pk : nat) (p : Proposal.t) (db : DB.t) :
  Proposal.status p ≠ "Accepted" →
  signals.create_contract_on_accept pk p db = (Return tt, db).
Proof. intros Hs. unfold signals.create_contract_on_accept. by rewrite decide_False. Qed.

(** Saving a proposal whose status is not "Accepted" writes its row and
    nothing else. *)
Lemma Proposal_save_other_status
    (signals_imported : bool) (pk : nat) (p : Proposal.t) (db : DB.t) :
  Proposal.status p ≠ "Accepted" →
  Proposal_save signals_imported pk p db
  = (Return tt, DB.set_proposals (insert pk p) db).
Proof.
  intros Hs. unfold Proposal_save, Proposal_post_save. orm.
  rewrite models_create_contract_on_accept_other_status by done.
  destruct signals_imported; [|done].
  by rewrite signals_create_contract_on_accept_other_status.
Qed.

(** Saving a proposal that already has its contract writes its row and
    nothing else. *)
Lemma Proposal_save_has_contract
    (signals_imported : bool) (pk k : nat) (p : Proposal.t) (c : Contract.t)
    (db : DB.t) :
  Contract_objects_filter_proposal pk db = {[k := c]} →
  Proposal_save signals_imported pk p db
  = (Return tt, DB.set_proposals (insert pk p) db).
Proof.
  intros Hone. unfold Proposal_save, Proposal_post_save. orm.
  erewrite models_create_contract_on_accept_keeps by exact Hone.
  destruct signals_imported; [|done].
  by erewrite signals_create_contract_on_accept_keeps by exact Hone.
Qed.

(** Saving an accepted proposal that has no contract yet creates exactly
    one, whichever receivers are connected. *)
Lemma Proposal_save_accepted_creates
    (signals_imported : bool) (pk : nat) (p : Proposal.t) (pr : Project.t)
    (db : DB.t) :
  Proposal.status p = "Accepted" →
  Contract_objects_filter_proposal pk db = ∅ →
  DB.projects db !! Proposal.project p = Some pr →
  Proposal_save signals_imported pk p db
  = (Return tt,
     DB.set_contracts (insert (next_pk (DB.contracts db)) (new_contract pk p pr))
       (DB.set_proposals (insert pk p) db)).
Proof.
  intros Hs Hnone Hpr. unfold Proposal_save, Proposal_post_save. orm.
  erewrite models_create_contract_on_accept_creates by done. cbn.
  destruct signals_imported; [|done].
  erewrite signals_create_contract_on_accept_keeps; [done|].
  apply filter_proposal_created; done.
Qed.

(** ** [accept], case by case *)

Lemma get_queryset_after_status
    (req : Request.t) (u : User.t) (pk : nat) (p : Proposal.t) (s : string)
    (db db' : DB.t) :
  views.ProposalViewSet_get_queryset req u db !! pk = Some p →
  DB.projects db' = DB.projects db →
  DB.proposals db' = <[pk := Proposal.set_status s p]> (DB.proposals db) →
  views.ProposalViewSet_get_queryset req u db' !! pk
  = Some (Proposal.set_status s p).
Proof.
  unfold views.ProposalViewSet_get_queryset. intros Hqs Hprojects Hproposals.
  rewrite Hprojects, Hproposals.
  destruct (User.is_client u); [|destruct (User.is_freelancer u)].
  - apply map_lookup_filter_Some in Hqs as [_ Hp].
    apply map_lookup_filter_Some. split; [apply lookup_insert_eq|exact Hp].
  - apply map_lookup_filter_Some in Hqs as [_ Hp].
    apply map_lookup_filter_Some. split; [apply lookup_insert_eq|exact Hp].
  - by rewrite lookup_empty in Hqs.
Qed.

Lemma accept_not_found
    (si : bool) (req : Request.t) (u : User.t) (pk : nat) (db : DB.t) :
  DB.users db !! Request.user req = Some u →
  views.ProposalViewSet_get_queryset req u db !! pk = None →
  views.ProposalViewSet_accept si req pk db
  = (Response.mk (Response.detail "Not found.") status.HTTP_404_NOT_FOUND, db).
Proof.
  intros Hu Hqs. unfold views.ProposalViewSet_accept, dispatch. rewrite Hu.
  orm. unfold get_object. by rewrite Hqs.
Qed.

Lemma accept_forbidden
    (si : bool) (req : Request.t) (u : User.t) (pk : nat) (p : Proposal.t)
    (pr : Project.t) (db : DB.t) :
  DB.users db !! Request.user req = Some u →
  views.ProposalViewSet_get_queryset req u db !! pk = Some p →
  DB.projects db !! Proposal.project p = Some pr →
  Project.client pr ≠ Request.user req →
  views.ProposalViewSet_accept si req pk db
  = (Response.mk (Response.error "Not allowed") status.HTTP_403_FORBIDDEN, db).
Proof.
  intros Hu Hqs Hpr Hclient. unfold views.ProposalViewSet_accept, dispatch.
  rewrite Hu. orm. unfold get_object. rewrite Hqs. orm. rewrite Hpr.
  by rewrite decide_True.
Qed.

Lemma accept_not_pending
    (si : bool) (req : Request.t) (u : User.t) (pk : nat) (p : Proposal.t)
    (pr : Project.t) (db : DB.t) :
  DB.users db !! Request.user req = Some u →
  views.ProposalViewSet_get_queryset req u db !! pk = Some p →
  DB.projects db !! Proposal.project p = Some pr →
  Project.client pr = Request.user req →
  Proposal.status p ≠ "Pending" →
  views.ProposalViewSet_accept si req pk db
  = (Response.mk (Response.error "Proposal not pending")
       status.HTTP_400_BAD_REQUEST, db).
Proof.
  intros Hu Hqs Hpr Hclient Hs. unfold views.ProposalViewSet_accept, dispatch.
  rewrite Hu. orm. unfold get_object. rewrite Hqs. orm. rewrite Hpr.
  rewrite decide_False by (intros Hne; by apply Hne).
  by rewrite decide_True.
Qed.

Lemma accept_creates
    (si : bool) (req : Request.t) (u : User.t) (pk : nat) (p : Proposal.t)
    (pr : Project.t) (db : DB.t) :
  DB.users db !! Request.user req = Some u →
  views.ProposalViewSet_get_queryset req u db !! pk = Some p →
  DB.projects db !! Proposal.project p = Some pr →
  Project.client pr = Request.user req →
  Proposal.status p = "Pending" →
  Contract_objects_filter_proposal pk db = ∅ →
  let p' := Proposal.set_status "Accepted" p in
  let k := next_pk (DB.contracts db) in
  views.ProposalViewSet_accept si req pk db
  = (Response.mk (Response.accepted "Proposal accepted" k) status.HTTP_200_OK,
     DB.set_notifications
       (insert (next_pk (DB.notifications db)) (acceptance_notification p pr k))
       (DB.set_contracts (insert k (new_contract pk p' pr))
          (DB.set_proposals (insert pk p') db))).
Proof.
  intros Hu Hqs Hpr Hclient Hs Hnone. cbv zeta.
  set (p' := Proposal.set_status "Accepted" p).
  set (k := next_pk (DB.contracts db)).
  unfold views.ProposalViewSet_accept, dispatch.
  rewrite Hu. orm. unfold get_object. rewrite Hqs. orm. rewrite Hpr.
  rewrite decide_False by (intros Hne; by apply Hne).
  rewrite decide_False by (intros Hne; by apply Hne).
  fold p'.
  erewrite (Proposal_save_accepted_creates si pk p' pr db); [|done|done|done].
  unfold models.Contract_objects_get_or_create. orm.
  rewrite (filter_proposal_created pk k (new_contract pk p' pr)) by done.
  rewrite queryset_get_singleton. cbn.
  unfold views.create_notification, Notification_objects_create. orm.
  done.
Qed.

Lemma accept_keeps
    (si : bool) (req : Request.t) (u : User.t) (pk k : nat) (p : Proposal.t)
    (pr : Project.t) (c : Contract.t) (db : DB.t) :
  DB.users db !! Request.user req = Some u →
  views.ProposalViewSet_get_queryset req u db !! pk = Some p →
  DB.projects db !! Proposal.project p = Some pr →
  Project.client pr = Request.user req →
  Proposal.status p = "Pending" →
  Contract_objects_filter_proposal pk db = {[k := c]} →
  let p' := Proposal.set_status "Accepted" p in
  views.ProposalViewSet_accept si req pk db
  = (Response.mk (Response.accepted "Proposal accepted" k) status.HTTP_200_OK,
     DB.set_notifications
       (insert (next_pk (DB.notifications db)) (acceptance_notification p pr k))
       (DB.set_proposals (insert pk p') db)).
Proof.
  intros Hu Hqs Hpr Hclient Hs Hone. cbv zeta.
  set (p' := Proposal.set_status "Accepted" p).
  unfold views.ProposalViewSet_accept, dispatch.
  rewrite Hu. orm. unfold get_object. rewrite Hqs. orm. rewrite Hpr.
  rewrite decide_False by (intros Hne; by apply Hne).
  rewrite decide_False by (intros Hne; by apply Hne).
  fold p'.
  erewrite (Proposal_save_has_contract si pk k p' c db); [|done].
  unfold models.Contract_objects_get_or_create. orm.
  change (Contract_objects_filter_proposal pk (DB.set_proposals (insert pk p') db))
    with (Contract_objects_filter_proposal pk db).
  rewrite Hone, queryset_get_singleton. cbn.
  unfold views.create_notification, Notification_objects_create. orm.
  done.
Qed.

(** ** Counting notifications *)

Lemma addressed_to_insert (x k : nat) (n : Notification.t) (db : DB.t) :
  DB.notifications db !! k = None →
  addressed_to x (DB.set_notifications (insert k n) db)
  = addressed_to x db + (if decide (Notification.user n = x) then 1 else 0).
Proof.
  intros Hfresh. unfold addressed_to. cbn.
  rewrite map_filter_insert. cbn. case_decide.
  - rewrite map_size_insert_None; [lia|].
    apply map_lookup_filter_None. by left.
  - rewrite delete_id by done. lia.
Qed.

Lemma size_notifications_insert (k : nat) (n : Notification.t) (db : DB.t) :
  DB.notifications db !! k = None →
  size (DB.notifications (DB.set_notifications (insert k n) db))
  = S (size (DB.notifications db)).
Proof. intros Hfresh. cbn. by apply map_size_insert_None. Qed.

(** One [Notification.objects.create]. *)
Lemma Notification_objects_create_spec (n : Notification.t) (db : DB.t) :
  ∃ db1 : DB.t,
    Notification_objects_create n db = (Return (next_pk (DB.notifications db)), db1)
    ∧ db1 = DB.set_notifications (insert (next_pk (DB.notifications db)) n) db
    ∧ size (DB.notifications db1) = S (size (DB.notifications db))
    ∧ ∀ x, addressed_to x db1
           = addressed_to x db + (if decide (Notification.user n = x) then 1 else 0).
Proof.
  eexists. split; [reflexivity|]. split; [reflexivity|].
  split; [apply size_notifications_insert, next_pk_fresh|].
  intros x. apply addressed_to_insert, next_pk_fresh.
Qed.

Lemma addressed_to_notify (x : nat) (n : Notification.t) (db : DB.t) :
  addressed_to x (notify n db)
  = addressed_to x db + (if decide (Notification.user n = x) then 1 else 0).
Proof. apply addressed_to_insert, next_pk_fresh. Qed.

Lemma size_notifications_notify (n : Notification.t) (db : DB.t) :
  size (DB.notifications (notify n db)) = S (size (DB.notifications db)).
Proof. apply size_notifications_insert, next_pk_fresh. Qed.

Lemma addressed_to_set_contracts
    (x : nat) (f : gmap nat Contract.t → gmap nat Contract.t) (db : DB.t) :
  addressed_to x (DB.set_contracts f db) = addressed_to x db.
Proof. reflexivity. Qed.

Lemma addressed_to_set_messages
    (x : nat) (f : gmap nat Message.t → gmap nat Message.t) (db : DB.t) :
  addressed_to x (DB.set_messages f db) = addressed_to x db.
Proof. reflexivity. Qed.

(** ** Completing a contract, case by case *)

Lemma notify_completed
    (pk : nat) (c : Contract.t) (p : Proposal.t) (pr : Project.t) (db : DB.t) :
  Contract.status c = "Completed" →
  DB.proposals db !! Contract.proposal c = Some p →
  DB.projects db !! Proposal.project p = Some pr →
  models.notify_on_contract_status_change pk c db
  = (Return tt,
     notify (completed_for_freelancer pk c pr) (notify (completed_for_client pk c pr) db)).
Proof.
  intros Hs Hp Hpr. unfold models.notify_on_contract_status_change.
  rewrite decide_True by done. orm. rewrite Hp, Hpr. reflexivity.
Qed.

(** Every save of a contract whose status is "Completed" sends the two
    notifications. *)
Lemma Contract_save_completed
    (pk : nat) (c : Contract.t) (p : Proposal.t) (pr : Project.t) (db : DB.t) :
  Contract.status c = "Completed" →
  DB.proposals db !! Contract.proposal c = Some p →
  DB.projects db !! Proposal.project p = Some pr →
  models.Contract_save pk c db
  = (Return tt,
     notify (completed_for_freelancer pk c pr)
       (notify (completed_for_client pk c pr)
          (DB.set_contracts (insert pk c) db))).
Proof.
  intros Hs Hp Hpr. unfold models.Contract_save, models.Contract_post_save. orm.
  by rewrite (notify_completed pk c p pr).
Qed.

Lemma mark_completed_completes
    (req : Request.t) (u : User.t) (pk : nat) (c : Contract.t) (p : Proposal.t)
    (pr : Project.t) (db : DB.t) :
  DB.users db !! Request.user req = Some u →
  DB.contracts db !! pk = Some c →
  Contract.status c ≠ "Completed" →
  DB.proposals db !! Contract.proposal c = Some p →
  DB.projects db !! Proposal.project p = Some pr →
  let c' := Contract.set_status "Completed" c in
  views.ContractViewSet_mark_completed req pk db
  = (Response.mk (Response.contract_data pk c') status.HTTP_200_OK,
     notify (completed_by_view c' pr)
       (notify (completed_for_freelancer pk c' pr)
          (notify (completed_for_client pk c' pr)
             (DB.set_contracts (insert pk c') db)))).
Proof.
  intros Hu Hc Hs Hp Hpr. cbv zeta.
  unfold views.ContractViewSet_mark_completed, dispatch. rewrite Hu. orm.
  rewrite Hc. rewrite decide_False by done.
  rewrite (Contract_save_completed pk (Contract.set_status "Completed" c) p pr)
    by done.
  cbn. rewrite Hp. cbn. rewrite Hpr. reflexivity.
Qed.

(** ** Sending a message, step by step *)

Lemma Message_objects_create_spec
    (si : bool) (m : Message.t) (u : User.t) (db : DB.t) :
  DB.users db !! Message.sender m = Some u →
  Message_objects_create si m db
  = (Return (next_pk (DB.messages db)),
     message_receivers_notify si m u
       (DB.set_messages (insert (next_pk (DB.messages db)) m) db)).
Proof.
  intros Hu. unfold Message_objects_create, Message_post_save. orm.
  unfold models.create_notification_on_message. orm. rewrite Hu. cbn.
  destruct si; [|reflexivity].
  unfold signals.create_notification_on_message. orm. rewrite Hu. reflexivity.
Qed.

Lemma message_receivers_notify_frame (si : bool) (m : Message.t) (u : User.t) (db : DB.t) :
  DB.users (message_receivers_notify si m u db) = DB.users db
  ∧ DB.projects (message_receivers_notify si m u db) = DB.projects db
  ∧ DB.proposals (message_receivers_notify si m u db) = DB.proposals db
  ∧ DB.contracts (message_receivers_notify si m u db) = DB.contracts db
  ∧ DB.messages (message_receivers_notify si m u db) = DB.messages db.
Proof. by destruct si. Qed.

Lemma MessageViewSet_create_spec
    (si : bool) (req : Request.t) (data : views.MessageData) (u : User.t)
    (c : Contract.t) (p : Proposal.t) (pr : Project.t) (db : DB.t) :
  DB.users db !! Request.user req = Some u →
  DB.contracts db !! views.data_contract data = Some c →
  DB.proposals db !! Contract.proposal c = Some p →
  DB.projects db !! Proposal.project p = Some pr →
  let m := Message.mk (views.data_contract data) (Request.user req)
             (views.data_receiver data) (views.data_text data) false in
  let recipient := if decide (Request.user req = Contract.client c)
                   then Contract.freelancer c else Contract.client c in
  views.MessageViewSet_create si req data db
  = (Response.mk (Response.message_data (next_pk (DB.messages db)) m)
       status.HTTP_201_CREATED,
     notify (chat_notice recipient m pr)
       (message_receivers_notify si m u
          (DB.set_messages (insert (next_pk (DB.messages db)) m) db))).
Proof.
  intros Hu Hc Hp Hpr. cbv zeta.
  unfold views.MessageViewSet_create, dispatch. rewrite Hu.
  unfold views.MessageViewSet_perform_create. orm.
  rewrite (Message_objects_create_spec si _ u) by done.
  set (m := Message.mk _ _ _ _ _).
  set (db1 := message_receivers_notify si m u _).
  destruct (message_receivers_notify_frame si m u
              (DB.set_messages (insert (next_pk (DB.messages db)) m) db))
    as (_ & Hprojects & Hproposals & Hcontracts & _).
  fold db1 in Hprojects, Hproposals, Hcontracts.
  cbn in Hprojects, Hproposals, Hcontracts.
  rewrite Hcontracts, Hc. cbn. rewrite Hproposals, Hp. cbn.
  rewrite Hprojects, Hpr. reflexivity.
Qed.

Lemma addressed_to_message_receivers_notify
    (x : nat) (si : bool) (m : Message.t) (u : User.t) (db : DB.t) :
  addressed_to x (message_receivers_notify si m u db)
  = addressed_to x db
    + (if decide (Message.receiver m = x) then (if si then 2 else 1) else 0).
Proof.
  unfold message_receivers_notify. destruct si;
    rewrite !addressed_to_notify; cbn; case_decide; lia.
Qed.

Lemma size_message_receivers_notify (si : bool) (m : Message.t) (u : User.t) (db : DB.t) :
  size (DB.notifications (message_receivers_notify si m u db))
  = size (DB.notifications db) + (if si then 2 else 1).
Proof.
  unfold message_receivers_notify. destruct si;
    rewrite !size_notifications_notify; lia.
Qed.

(** * The claims *)

(** ** Accepting a proposal *)

(** C1, as the code has it: when the project's client accepts a pending
    proposal, the call answers 200 with the id of the one contract of the
    proposal, and the notification table grows by exactly one row, addressed
    to the freelancer.  A second call is refused with 400 "Proposal not
    pending" and changes nothing, so there is still exactly one contract and
    one acceptance notification. *)
Theorem accept_twice_one_contract
    (si : bool) (req : Request.t) (u : User.t) (pk : nat) (p : Proposal.t)
    (pr : Project.t) (db : DB.t) :
  DB.users db !! Request.user req = Some u →
  views.ProposalViewSet_get_queryset req u db !! pk = Some p →
  DB.projects db !! Proposal.project p = Some pr →
  Project.client pr = Request.user req →
  Proposal.status p = "Pending" →
  size (Contract_objects_filter_proposal pk db) ≤ 1 →
  ∃ (k : nat) (c : Contract.t) (nk : nat) (n : Notification.t) (db1 : DB.t),
    views.ProposalViewSet_accept si req pk db
    = (Response.mk (Response.accepted "Proposal accepted" k) status.HTTP_200_OK, db1)
    ∧ Contract_objects_filter_proposal pk db1 = {[k := c]}
    ∧ DB.notifications db !! nk = None
    ∧ DB.notifications db1 = <[nk := n]> (DB.notifications db)
    ∧ Notification.user n = Proposal.freelancer p
    ∧ views.ProposalViewSet_accept si req pk db1
      = (Response.mk (Response.error "Proposal not pending")
           status.HTTP_400_BAD_REQUEST, db1).
Proof.
  intros Hu Hqs Hpr Hclient Hs Hunique.
  set (p' := Proposal.set_status "Accepted" p).
  assert (∀ db1, DB.users db1 = DB.users db → DB.projects db1 = DB.projects db →
            DB.proposals db1 = <[pk := p']> (DB.proposals db) →
            views.ProposalViewSet_accept si req pk db1
            = (Response.mk (Response.error "Proposal not pending")
                 status.HTTP_400_BAD_REQUEST, db1)) as Hsecond.
  { intros db1 Husers Hprojects Hproposals.
    apply (accept_not_pending si req u pk p' pr db1).
    - by rewrite Husers.
    - by apply (get_queryset_after_status req u pk p "Accepted" db db1).
    - by rewrite Hprojects.
    - done.
    - discriminate. }
  destruct (at_most_one _ Hunique) as [Hnone|(k & c & Hone)].
  - eexists _, _, _, _, _. split; [by apply (accept_creates si req u pk p pr db)|].
    split; [by apply (filter_proposal_created pk _ (new_contract pk p' pr))|].
    split; [apply next_pk_fresh|]. split; [done|]. split; [done|].
    by apply Hsecond.
  - eexists k, c, _, _, _. split; [by apply (accept_keeps si req u pk k p pr c db)|].
    split; [exact Hone|].
    split; [apply next_pk_fresh|]. split; [done|]. split; [done|].
    by apply Hsecond.
Qed.

Lemma accept_twice_one_contract_witness :
  ∃ (k : nat) (c : Contract.t) (nk : nat) (n : Notification.t) (db1 : DB.t),
    views.ProposalViewSet_accept true (Request.mk alice) 1 example_db
    = (Response.mk (Response.accepted "Proposal accepted" k) status.HTTP_200_OK, db1)
    ∧ Contract_objects_filter_proposal 1 db1 = {[k := c]}
    ∧ DB.notifications example_db !! nk = None
    ∧ DB.notifications db1 = <[nk := n]> (DB.notifications example_db)
    ∧ Notification.user n = bob
    ∧ views.ProposalViewSet_accept true (Request.mk alice) 1 db1
      = (Response.mk (Response.error "Proposal not pending")
           status.HTTP_400_BAD_REQUEST, db1).
Proof.
  apply (accept_twice_one_contract true (Request.mk alice)
           (User.mk "alice" true false) 1
           (Proposal.mk 1 bob "I can do it" 10000 "Pending")
           (Project.mk alice "Site") example_db).
  - reflexivity.
  - vm_compute. reflexivity.
  - reflexivity.
  - reflexivity.
  - reflexivity.
  - vm_compute. lia.
Defined.

(** C1, as the specification words it, fails: on the example, the first call
    answers with contract id 1 and the second call carries no contract id at
    all, it is the 400 refusal. *)
Lemma accept_twice_second_call_refused :
  let first := views.ProposalViewSet_accept true (Request.mk alice) 1 example_db in
  let second := views.ProposalViewSet_accept true (Request.mk alice) 1 first.2 in
  accepted_contract_id first.1 = Some 1
  ∧ second.1 = Response.mk (Response.error "Proposal not pending")
                 status.HTTP_400_BAD_REQUEST
  ∧ accepted_contract_id second.1 ≠ accepted_contract_id first.1.
Proof. vm_compute. repeat split. discriminate. Qed.

(** C6, as the code has it: a call by a user who is not the project's
    client, or on a proposal that is not pending, is refused and leaves the
    database as it was.  The refusal is 404 when the proposal is outside the
    caller's queryset, 403 "Not allowed" when the caller sees the proposal
    without being the project's client, and 400 "Proposal not pending" when
    the project's client sees a proposal that is not pending. *)
Theorem accept_refused_changes_nothing
    (si : bool) (req : Request.t) (u : User.t) (pk : nat) (p : Proposal.t)
    (pr : Project.t) (db : DB.t) :
  DB.users db !! Request.user req = Some u →
  DB.proposals db !! pk = Some p →
  DB.projects db !! Proposal.project p = Some pr →
  Project.client pr ≠ Request.user req ∨ Proposal.status p ≠ "Pending" →
  ∃ response : Response.t,
    views.ProposalViewSet_accept si req pk db = (response, db)
    ∧ ((views.ProposalViewSet_get_queryset req u db !! pk = None
        ∧ response = Response.mk (Response.detail "Not found.")
                       status.HTTP_404_NOT_FOUND)
       ∨ (views.ProposalViewSet_get_queryset req u db !! pk = Some p
          ∧ Project.client pr ≠ Request.user req
          ∧ response = Response.mk (Response.error "Not allowed")
                         status.HTTP_403_FORBIDDEN)
       ∨ (views.ProposalViewSet_get_queryset req u db !! pk = Some p
          ∧ Project.client pr = Request.user req
          ∧ Proposal.status p ≠ "Pending"
          ∧ response = Response.mk (Response.error "Proposal not pending")
                         status.HTTP_400_BAD_REQUEST)).
Proof.
  intros Hu Hp Hpr Hbad.
  destruct (views.ProposalViewSet_get_queryset req u db !! pk) as [p0|] eqn:Hqs.
  - assert (p0 = p) as ->.
    { unfold views.ProposalViewSet_get_queryset in Hqs.
      destruct (User.is_client u); [|destruct (User.is_freelancer u)].
      - apply map_lookup_filter_Some in Hqs as [Hp0 _]. congruence.
      - apply map_lookup_filter_Some in Hqs as [Hp0 _]. congruence.
      - by rewrite lookup_empty in Hqs. }
    destruct (decide (Project.client pr = Request.user req)) as [Hclient|Hclient].
    + destruct Hbad as [Hbad|Hbad]; [done|].
      eexists. split; [by apply (accept_not_pending si req u pk p pr db)|].
      right. right. done.
    + eexists. split; [by apply (accept_forbidden si req u pk p pr db)|].
      right. left. done.
  - eexists. split; [by apply (accept_not_found si req u pk db)|].
    left. done.
Qed.

Lemma accept_refused_changes_nothing_witness :
  ∃ response : Response.t,
    views.ProposalViewSet_accept true (Request.mk bob) 1 example_db
    = (response, example_db)
    ∧ ((views.ProposalViewSet_get_queryset (Request.mk bob)
          (User.mk "bob" false true) example_db !! 1 = None
        ∧ response = Response.mk (Response.detail "Not found.")
                       status.HTTP_404_NOT_FOUND)
       ∨ (views.ProposalViewSet_get_queryset (Request.mk bob)
            (User.mk "bob" false true) example_db !! 1
          = Some (Proposal.mk 1 bob "I can do it" 10000 "Pending")
          ∧ Project.client (Project.mk alice "Site") ≠ Request.user (Request.mk bob)
          ∧ response = Response.mk (Response.error "Not allowed")
                         status.HTTP_403_FORBIDDEN)
       ∨ (views.ProposalViewSet_get_queryset (Request.mk bob)
            (User.mk "bob" false true) example_db !! 1
          = Some (Proposal.mk 1 bob "I can do it" 10000 "Pending")
          ∧ Project.client (Project.mk alice "Site") = Request.user (Request.mk bob)
          ∧ Proposal.status (Proposal.mk 1 bob "I can do it" 10000 "Pending")
            ≠ "Pending"
          ∧ response = Response.mk (Response.error "Proposal not pending")
                         status.HTTP_400_BAD_REQUEST)).
Proof.
  apply (accept_refused_changes_nothing true (Request.mk bob)
           (User.mk "bob" false true) 1
           (Proposal.mk 1 bob "I can do it" 10000 "Pending")
           (Project.mk alice "Site") example_db).
  - reflexivity.
  - reflexivity.
  - reflexivity.
  - left. vm_compute. lia.
Defined.

(** C6, as the specification words it, fails: Carol is a client but not the
    client of the project, and her call is answered 404, not 403. *)
Lemma accept_by_other_client_is_not_found :
  Project.client (Project.mk alice "Site") ≠ carol
  ∧ views.ProposalViewSet_accept true (Request.mk carol) 1 example_db
    = (Response.mk (Response.detail "Not found.") status.HTTP_404_NOT_FOUND,
       example_db)
  ∧ Response.status
      (views.ProposalViewSet_accept true (Request.mk carol) 1 example_db).1
    ≠ status.HTTP_403_FORBIDDEN.
Proof. vm_compute. repeat split; discriminate. Qed.

(** C7: the contract that [accept] creates carries the bid of the proposal
    as it is at that moment; and whenever the proposal is saved again with
    any values at all (a new bid among them), in any later state in which it
    still has that contract, only the proposal's row is written: the
    contract table, hence the contract's payment amount and every other
    field of it, stays as it is. *)
Theorem contract_payment_is_a_snapshot
    (si : bool) (req : Request.t) (u : User.t) (pk : nat) (p : Proposal.t)
    (pr : Project.t) (db : DB.t) :
  DB.users db !! Request.user req = Some u →
  views.ProposalViewSet_get_queryset req u db !! pk = Some p →
  DB.projects db !! Proposal.project p = Some pr →
  Project.client pr = Request.user req →
  Proposal.status p = "Pending" →
  Contract_objects_filter_proposal pk db = ∅ →
  ∃ (k : nat) (c : Contract.t) (response : Response.t) (db1 : DB.t),
    views.ProposalViewSet_accept si req pk db = (response, db1)
    ∧ DB.contracts db !! k = None
    ∧ DB.contracts db1 = <[k := c]> (DB.contracts db)
    ∧ Contract.proposal c = pk
    ∧ Contract.payment_amount c = Proposal.bid_amount p
    ∧ Contract_objects_filter_proposal pk db1 = {[k := c]}
    ∧ ∀ (later : DB.t) (p' : Proposal.t),
        Contract_objects_filter_proposal pk later = {[k := c]} →
        ∃ db2 : DB.t,
          Proposal_save si pk p' later = (Return tt, db2)
          ∧ DB.proposals db2 !! pk = Some p'
          ∧ DB.contracts db2 = DB.contracts later
          ∧ DB.contracts db2 !! k = Some c.
Proof.
  intros Hu Hqs Hpr Hclient Hs Hnone.
  eexists _, _, _, _. split; [by apply (accept_creates si req u pk p pr db)|].
  split; [apply next_pk_fresh|]. split; [done|]. split; [done|]. split; [done|].
  split; [by apply (filter_proposal_created pk _ (new_contract pk _ pr))|].
  intros later p' Hone. eexists.
  split; [by eapply Proposal_save_has_contract|].
  split; [apply lookup_insert_eq|]. split; [done|]. cbn.
  assert (Contract_objects_filter_proposal pk later !! next_pk (DB.contracts db)
          = Some (new_contract pk (Proposal.set_status "Accepted" p) pr)) as Hk.
  { rewrite Hone. apply lookup_singleton_eq. }
  by apply map_lookup_filter_Some in Hk as [Hk _].
Qed.

Lemma contract_payment_is_a_snapshot_witness :
  ∃ (k : nat) (c : Contract.t) (response : Response.t) (db1 : DB.t),
    views.ProposalViewSet_accept true (Request.mk alice) 1 example_db
    = (response, db1)
    ∧ DB.contracts example_db !! k = None
    ∧ DB.contracts db1 = <[k := c]> (DB.contracts example_db)
    ∧ Contract.proposal c = 1
    ∧ Contract.payment_amount c = 10000%Z
    ∧ Contract_objects_filter_proposal 1 db1 = {[k := c]}
    ∧ ∀ (later : DB.t) (p' : Proposal.t),
        Contract_objects_filter_proposal 1 later = {[k := c]} →
        ∃ db2 : DB.t,
          Proposal_save true 1 p' later = (Return tt, db2)
          ∧ DB.proposals db2 !! 1 = Some p'
          ∧ DB.contracts db2 = DB.contracts later
          ∧ DB.contracts db2 !! k = Some c.
Proof.
  apply (contract_payment_is_a_snapshot true (Request.mk alice)
           (User.mk "alice" true false) 1
           (Proposal.mk 1 bob "I can do it" 10000 "Pending")
           (Project.mk alice "Site") example_db).
  - reflexivity.
  - vm_compute. reflexivity.
  - reflexivity.
  - reflexivity.
  - reflexivity.
  - vm_compute. reflexivity.
Defined.

(** C8: saving a proposal with status "Rejected", once or any number of
    times and with whatever other values, creates no contract: every save
    succeeds and the contract table (and the notification table) is the one
    before the saves. *)
Theorem rejected_proposal_never_gets_contract
    (si : bool) (pk : nat) (instances : list Proposal.t) (db : DB.t) :
  Forall (λ instance, Proposal.status instance = "Rejected") instances →
  ∃ db' : DB.t,
    save_each si pk instances db = (Return tt, db')
    ∧ DB.contracts db' = DB.contracts db
    ∧ Contract_objects_filter_proposal pk db' = Contract_objects_filter_proposal pk db
    ∧ DB.notifications db' = DB.notifications db.
Proof.
  intros Hall. revert db.
  induction Hall as [|instance rest Hs _ IH]; intros db.
  - by exists db.
  - destruct (IH (DB.set_proposals (insert pk instance) db))
      as (db' & Hrun & Hcontracts & Hfilter & Hnotifications).
    exists db'. cbn. orm.
    rewrite Proposal_save_other_status by (rewrite Hs; discriminate).
    done.
Qed.

Lemma rejected_proposal_never_gets_contract_witness :
  ∃ db' : DB.t,
    save_each true 1
      [Proposal.mk 1 bob "I can do it" 10000 "Rejected";
       Proposal.mk 1 bob "I can do it" 10000 "Rejected";
       Proposal.mk 1 bob "Please reconsider" 9000 "Rejected"] example_db
    = (Return tt, db')
    ∧ DB.contracts db' = DB.contracts example_db
    ∧ Contract_objects_filter_proposal 1 db'
      = Contract_objects_filter_proposal 1 example_db
    ∧ DB.notifications db' = DB.notifications example_db.
Proof.
  apply (rejected_proposal_never_gets_contract true 1).
  repeat constructor.
Defined.

(** ** Completing a contract *)

(** C2: [mark_completed] on a contract whose status is already "Completed"
    answers 400 "Contract already completed." and returns the database as
    it was: no row of any table changes and no notification is created. *)
Theorem mark_completed_already_completed
    (req : Request.t) (u : User.t) (pk : nat) (c : Contract.t) (db : DB.t) :
  DB.users db !! Request.user req = Some u →
  DB.contracts db !! pk = Some c →
  Contract.status c = "Completed" →
  views.ContractViewSet_mark_completed req pk db
  = (Response.mk (Response.detail "Contract already completed.")
       status.HTTP_400_BAD_REQUEST, db).
Proof.
  intros Hu Hc Hs. unfold views.ContractViewSet_mark_completed, dispatch.
  rewrite Hu. orm. rewrite Hc. by rewrite decide_True.
Qed.

Lemma mark_completed_already_completed_witness :
  views.ContractViewSet_mark_completed (Request.mk alice) 1 example_completed_db
  = (Response.mk (Response.detail "Contract already completed.")
       status.HTTP_400_BAD_REQUEST, example_completed_db).
Proof.
  apply (mark_completed_already_completed (Request.mk alice)
           (User.mk "alice" true false) 1
           (Contract.mk 1 alice bob 10000 "Completed" None None)).
  - reflexivity.
  - vm_compute. reflexivity.
  - reflexivity.
Defined.

(** C3, as the code has it: [mark_completed] on a contract that is not yet
    completed sets its status to "Completed" and creates exactly three
    notifications: the receiver of [post_save] sends one to the client and
    one to the freelancer, and the view sends one more to the freelancer. *)
Theorem mark_completed_notifies_three_times
    (req : Request.t) (u : User.t) (pk : nat) (c : Contract.t) (p : Proposal.t)
    (pr : Project.t) (db : DB.t) :
  DB.users db !! Request.user req = Some u →
  DB.contracts db !! pk = Some c →
  Contract.status c ≠ "Completed" →
  DB.proposals db !! Contract.proposal c = Some p →
  DB.projects db !! Proposal.project p = Some pr →
  ∃ db1 : DB.t,
    views.ContractViewSet_mark_completed req pk db
    = (Response.mk (Response.contract_data pk (Contract.set_status "Completed" c))
         status.HTTP_200_OK, db1)
    ∧ DB.contracts db1 = <[pk := Contract.set_status "Completed" c]> (DB.contracts db)
    ∧ size (DB.notifications db1) = size (DB.notifications db) + 3
    ∧ ∀ x : nat,
        addressed_to x db1
        = addressed_to x db
          + (if decide (Contract.client c = x) then 1 else 0)
          + (if decide (Contract.freelancer c = x) then 2 else 0).
Proof.
  intros Hu Hc Hs Hp Hpr. eexists.
  split; [by apply (mark_completed_completes req u pk c p pr db)|].
  split; [done|]. split.
  - rewrite !size_notifications_notify. cbn. lia.
  - intros x. rewrite !addressed_to_notify, addressed_to_set_contracts. cbn.
    repeat case_decide; lia.
Qed.

Lemma mark_completed_notifies_three_times_witness :
  ∃ db1 : DB.t,
    views.ContractViewSet_mark_completed (Request.mk alice) 1 example_active_db
    = (Response.mk
         (Response.contract_data 1
            (Contract.set_status "Completed"
               (Contract.mk 1 alice bob 10000 "Active" None None)))
         status.HTTP_200_OK, db1)
    ∧ DB.contracts db1
      = <[1 := Contract.set_status "Completed"
                 (Contract.mk 1 alice bob 10000 "Active" None None)]>
          (DB.contracts example_active_db)
    ∧ size (DB.notifications db1) = size (DB.notifications example_active_db) + 3
    ∧ ∀ x : nat,
        addressed_to x db1
        = addressed_to x example_active_db
          + (if decide (alice = x) then 1 else 0)
          + (if decide (bob = x) then 2 else 0).
Proof.
  apply (mark_completed_notifies_three_times (Request.mk alice)
           (User.mk "alice" true false) 1
           (Contract.mk 1 alice bob 10000 "Active" None None)
           (Proposal.mk 1 bob "I can do it" 10000 "Accepted")
           (Project.mk alice "Site") example_active_db).
  - reflexivity.
  - vm_compute. reflexivity.
  - vm_compute. discriminate.
  - vm_compute. reflexivity.
  - reflexivity.
Defined.

(** C3, as the specification words it, fails: completing the active contract
    of the example gives Bob, the freelancer, two new notifications, and
    three new notifications in all. *)
Lemma mark_completed_notifies_freelancer_twice :
  Response.status
    (views.ContractViewSet_mark_completed (Request.mk alice) 1 example_active_db).1
  = status.HTTP_200_OK
  ∧ addressed_to alice example_completed_db = addressed_to alice example_active_db + 1
  ∧ addressed_to bob example_completed_db = addressed_to bob example_active_db + 2
  ∧ size (DB.notifications example_completed_db)
    = size (DB.notifications example_active_db) + 3.
Proof. vm_compute. repeat split. Qed.

(** C9 fails on the code: the receiver fires on every save of a contract
    whose status is "Completed".  On the completed contract of the example,
    the client's update that writes a rating and a review is answered 200 and
    creates two more notifications, one for each party. *)
Theorem completed_contract_update_notifies_again :
  let result :=
    views.ContractViewSet_partial_update (Request.mk alice) 1
      (Some 5) (Some "Great work") example_completed_db in
  DB.contracts example_completed_db !! 1
  = Some (Contract.mk 1 alice bob 10000 "Completed" None None)
  ∧ result.1
    = Response.mk
        (Response.contract_data 1
           (Contract.mk 1 alice bob 10000 "Completed" (Some 5) (Some "Great work")))
        status.HTTP_200_OK
  ∧ size (DB.notifications result.2)
    = size (DB.notifications example_completed_db) + 2
  ∧ addressed_to alice result.2 = addressed_to alice example_completed_db + 1
  ∧ addressed_to bob result.2 = addressed_to bob example_completed_db + 1.
Proof. vm_compute. repeat split. Qed.

(** The same for every completed contract and every later save of it. *)
Lemma completed_contract_save_notifies_again
    (pk : nat) (c : Contract.t) (p : Proposal.t) (pr : Project.t) (db : DB.t) :
  Contract.status c = "Completed" →
  DB.proposals db !! Contract.proposal c = Some p →
  DB.projects db !! Proposal.project p = Some pr →
  ∃ db1 : DB.t,
    models.Contract_save pk c db = (Return tt, db1)
    ∧ size (DB.notifications db1) = size (DB.notifications db) + 2.
Proof.
  intros Hs Hp Hpr. eexists.
  split; [by apply (Contract_save_completed pk c p pr db)|].
  rewrite !size_notifications_notify. cbn. lia.
Qed.

(** ** Sending a message *)

(** C4, as the code has it: when a party of the contract sends a message,
    the message is stored and the view creates exactly one notification,
    addressed to the other party: to the freelancer when the client sends,
    to the client when the freelancer sends.  On top of it every connected
    [post_save] receiver creates one notification addressed to the
    receiver named in the message: one when only [models.py] is connected,
    two when [signals.py] is connected as well. *)
Theorem send_message_notifications
    (si : bool) (req : Request.t) (data : views.MessageData) (u : User.t)
    (c : Contract.t) (p : Proposal.t) (pr : Project.t) (db : DB.t) :
  DB.users db !! Request.user req = Some u →
  DB.contracts db !! views.data_contract data = Some c →
  DB.proposals db !! Contract.proposal c = Some p →
  DB.projects db !! Proposal.project p = Some pr →
  Request.user req = Contract.client c ∨ Request.user req = Contract.freelancer c →
  ∃ (mk recipient : nat) (m : Message.t) (db1 : DB.t),
    views.MessageViewSet_create si req data db
    = (Response.mk (Response.message_data mk m) status.HTTP_201_CREATED, db1)
    ∧ Message.sender m = Request.user req
    ∧ DB.messages db !! mk = None
    ∧ DB.messages db1 = <[mk := m]> (DB.messages db)
    ∧ (Request.user req = Contract.client c → recipient = Contract.freelancer c)
    ∧ (Request.user req = Contract.freelancer c → recipient = Contract.client c)
    ∧ size (DB.notifications db1)
      = size (DB.notifications db) + 1 + (if si then 2 else 1)
    ∧ ∀ x : nat,
        addressed_to x db1
        = addressed_to x db
          + (if decide (recipient = x) then 1 else 0)
          + (if decide (views.data_receiver data = x)
             then (if si then 2 else 1) else 0).
Proof.
  intros Hu Hc Hp Hpr Hparty.
  eexists _, (if decide (Request.user req = Contract.client c)
              then Contract.freelancer c else Contract.client c), _, _.
  split; [by apply (MessageViewSet_create_spec si req data u c p pr db)|].
  split; [done|]. split; [apply next_pk_fresh|].
  split; [by destruct si|].
  split; [intros Hclient; by rewrite decide_True|].
  split; [intros Hfreelancer; case_decide; congruence|].
  split.
  - rewrite size_notifications_notify, size_message_receivers_notify. cbn. lia.
  - intros x. rewrite addressed_to_notify, addressed_to_message_receivers_notify,
      addressed_to_set_messages. cbn. lia.
Qed.

Lemma send_message_notifications_witness :
  ∃ (mk recipient : nat) (m : Message.t) (db1 : DB.t),
    views.MessageViewSet_create true (Request.mk bob)
      (views.Build_MessageData 1 alice "Hello") example_active_db
    = (Response.mk (Response.message_data mk m) status.HTTP_201_CREATED, db1)
    ∧ Message.sender m = bob
    ∧ DB.messages example_active_db !! mk = None
    ∧ DB.messages db1 = <[mk := m]> (DB.messages example_active_db)
    ∧ (bob = alice → recipient = bob)
    ∧ (bob = bob → recipient = alice)
    ∧ size (DB.notifications db1)
      = size (DB.notifications example_active_db) + 1 + 2
    ∧ ∀ x : nat,
        addressed_to x db1
        = addressed_to x example_active_db
          + (if decide (recipient = x) then 1 else 0)
          + (if decide (alice = x) then 2 else 0).
Proof.
  apply (send_message_notifications true (Request.mk bob)
           (views.Build_MessageData 1 alice "Hello")
           (User.mk "bob" false true)
           (Contract.mk 1 alice bob 10000 "Active" None None)
           (Proposal.mk 1 bob "I can do it" 10000 "Accepted")
           (Project.mk alice "Site") example_active_db).
  - reflexivity.
  - vm_compute. reflexivity.
  - vm_compute. reflexivity.
  - reflexivity.
  - right. reflexivity.
Defined.

(** C4, as the specification words it, fails: when Alice, the client, sends
    Bob a message on their contract, Bob gets two new notifications with
    the receivers of [models.py] alone and three with those of [signals.py]
    as well, never exactly one. *)
Lemma send_message_notifies_more_than_once :
  let data := views.Build_MessageData 1 bob "Hello" in
  let models_only :=
    views.MessageViewSet_create false (Request.mk alice) data example_active_db in
  let with_signals :=
    views.MessageViewSet_create true (Request.mk alice) data example_active_db in
  Response.status models_only.1 = status.HTTP_201_CREATED
  ∧ Response.status with_signals.1 = status.HTTP_201_CREATED
  ∧ addressed_to bob models_only.2 = addressed_to bob example_active_db + 2
  ∧ addressed_to bob with_signals.2 = addressed_to bob example_active_db + 3.
Proof. vm_compute. repeat split. Qed.

(** C5 fails on the code: [perform_create] never looks at who the sender
    is.  Dave is neither the client nor the freelancer of the contract of
    Alice and Bob; his message is answered 201, it is stored, the view
    notifies Alice and the receiver of [models.py] notifies Bob. *)
Theorem send_message_by_outsider_succeeds :
  let result :=
    views.MessageViewSet_create false (Request.mk dave)
      (views.Build_MessageData 1 bob "Hello") example_active_db in
  DB.contracts example_active_db !! 1
  = Some (Contract.mk 1 alice bob 10000 "Active" None None)
  ∧ result.1
    = Response.mk (Response.message_data 1 (Message.mk 1 dave bob "Hello" false))
        status.HTTP_201_CREATED
  ∧ DB.messages example_active_db = ∅
  ∧ DB.messages result.2 = {[1 := Message.mk 1 dave bob "Hello" false]}
  ∧ size (DB.notifications result.2)
    = size (DB.notifications example_active_db) + 2
  ∧ addressed_to alice result.2 = addressed_to alice example_active_db + 1
  ∧ addressed_to bob result.2 = addressed_to bob example_active_db + 1.
Proof. vm_compute. repeat split. Qed.

(** The same for every contract and every authenticated user who is not a
    party to it. *)
Lemma send_message_by_any_outsider
    (si : bool) (req : Request.t) (data : views.MessageData) (u : User.t)
    (c : Contract.t) (p : Proposal.t) (pr : Project.t) (db : DB.t) :
  DB.users db !! Request.user req = Some u →
  DB.contracts db !! views.data_contract data = Some c →
  DB.proposals db !! Contract.proposal c = Some p →
  DB.projects db !! Proposal.project p = Some pr →
  Request.user req ≠ Contract.client c →
  Request.user req ≠ Contract.freelancer c →
  ∃ (mk : nat) (m : Message.t) (db1 : DB.t),
    views.MessageViewSet_create si req data db
    = (Response.mk (Response.message_data mk m) status.HTTP_201_CREATED, db1)
    ∧ Message.sender m = Request.user req
    ∧ DB.messages db !! mk = None
    ∧ DB.messages db1 = <[mk := m]> (DB.messages db)
    ∧ size (DB.notifications db1)
      = size (DB.notifications db) + 1 + (if si then 2 else 1).
Proof.
  intros Hu Hc Hp Hpr _ _. eexists _, _, _.
  split; [by apply (MessageViewSet_create_spec si req data u c p pr db)|].
  split; [done|]. split; [apply next_pk_fresh|].
  split; [by destruct si|].
  rewrite size_notifications_notify, size_message_receivers_notify. cbn. lia.
Qed.

(** ** Reading a notification *)

(** C10: [mark_as_read] is scoped to the requesting user.  On a
    notification addressed to someone else it answers 404 "Notification not
    found" and returns the database as it was.  On a notification addressed
    to the user it answers 200 and writes that one row: its [is_read]
    becomes true and its other fields stay.  In both cases every other
    notification and every other table is as before. *)
Theorem mark_as_read_scoped
    (req : Request.t) (u : User.t) (pk : nat) (n : Notification.t) (db : DB.t) :
  DB.users db !! Request.user req = Some u →
  DB.notifications db !! pk = Some n →
  ∃ (response : Response.t) (db1 : DB.t),
    views.NotificationViewSet_mark_as_read req pk db = (response, db1)
    ∧ (∀ k : nat, k ≠ pk → DB.notifications db1 !! k = DB.notifications db !! k)
    ∧ db1 = DB.set_notifications (λ _, DB.notifications db1) db
    ∧ if decide (Notification.user n = Request.user req)
      then response = Response.mk (Response.message "Notification marked as read ✅")
                        status.HTTP_200_OK
           ∧ ∃ n' : Notification.t,
               DB.notifications db1 !! pk = Some n'
               ∧ Notification.is_read n' = true
               ∧ Notification.user n' = Notification.user n
               ∧ Notification.message n' = Notification.message n
               ∧ Notification.link n' = Notification.link n
               ∧ Notification.notification_type n' = Notification.notification_type n
      else response = Response.mk (Response.error "Notification not found")
                        status.HTTP_404_NOT_FOUND
           ∧ db1 = db.
Proof.
  intros Hu Hn. case_decide as Hmine.
  - exists (Response.mk (Response.message "Notification marked as read ✅")
              status.HTTP_200_OK),
           (DB.set_notifications (insert pk (Notification.set_is_read true n)) db).
    split.
    { unfold views.NotificationViewSet_mark_as_read, dispatch.
      rewrite Hu. orm.
      assert (views.NotificationViewSet_get_queryset req db !! pk = Some n) as ->.
      { by apply map_lookup_filter_Some. }
      reflexivity. }
    split; [intros k Hk; by apply lookup_insert_ne|].
    split; [reflexivity|]. split; [reflexivity|].
    exists (Notification.set_is_read true n).
    split; [apply lookup_insert_eq|]. done.
  - exists (Response.mk (Response.error "Notification not found")
              status.HTTP_404_NOT_FOUND), db.
    split.
    { unfold views.NotificationViewSet_mark_as_read, dispatch.
      rewrite Hu. orm.
      assert (views.NotificationViewSet_get_queryset req db !! pk = None) as ->.
      { apply map_lookup_filter_None. right. intros n0 Hn0. cbn. congruence. }
      reflexivity. }
    split; [done|]. split; [by destruct db|]. done.
Qed.

Lemma mark_as_read_scoped_witness :
  ∃ (response : Response.t) (db1 : DB.t),
    views.NotificationViewSet_mark_as_read (Request.mk bob) 1 example_active_db
    = (response, db1)
    ∧ (∀ k : nat, k ≠ 1 →
         DB.notifications db1 !! k = DB.notifications example_active_db !! k)
    ∧ db1 = DB.set_notifications (λ _, DB.notifications db1) example_active_db
    ∧ if decide (Notification.user
                   (acceptance_notification
                      (Proposal.mk 1 bob "I can do it" 10000 "Pending")
                      (Project.mk alice "Site") 1)
                 = Request.user (Request.mk bob))
      then response = Response.mk (Response.message "Notification marked as read ✅")
                        status.HTTP_200_OK
           ∧ ∃ n' : Notification.t,
               DB.notifications db1 !! 1 = Some n'
               ∧ Notification.is_read n' = true
               ∧ Notification.user n' = bob
               ∧ Notification.message n'
                 = "Your proposal for project 'Site' has been accepted!"
               ∧ Notification.link n' = Some "/contracts/1/"
               ∧ Notification.notification_type n' = "system"
      else response = Response.mk (Response.error "Notification not found")
                        status.HTTP_404_NOT_FOUND
           ∧ db1 = example_active_db.
Proof.
  apply (mark_as_read_scoped (Request.mk bob) (User.mk "bob" false true) 1
           (acceptance_notification (Proposal.mk 1 bob "I can do it" 10000 "Pending")
              (Project.mk alice "Site") 1)
           example_active_db).
  - reflexivity.
  - vm_compute. reflexivity.
Defined.

(** Carol cannot mark Bob's notification as read. *)
Example mark_as_read_by_another_user :
  views.NotificationViewSet_mark_as_read (Request.mk carol) 1 example_active_db
  = (Response.mk (Response.error "Notification not found")
       status.HTTP_404_NOT_FOUND, example_active_db).
Proof. vm_compute. reflexivity. Qed.

(** * Further properties of the code *)

(** ** Helpers *)

Lemma filter_proposal_other (q pk k : nat) (c : Contract.t) (db : DB.t) :
  DB.contracts db !! k = None →
  Contract.proposal c = pk →
  q ≠ pk →
  Contract_objects_filter_proposal q (DB.set_contracts (insert k c) db)
  = Contract_objects_filter_proposal q db.
Proof.
  unfold Contract_objects_filter_proposal. cbn. intros Hfresh Hpk Hq.
  apply map_filter_insert_not'; cbn; [congruence|].
  intros y Hy. congruence.
Qed.


Lemma mark_completed_refused
    (req : Request.t) (u : User.t) (pk : nat) (c : Contract.t) (db : DB.t) :
  DB.users db !! Request.user req = Some u →
  DB.contracts db !! pk = Some c →
  Contract.status c = "Completed" →
  views.ContractViewSet_mark_completed req pk db
  = (Response.mk (Response.detail "Contract already completed.")
       status.HTTP_400_BAD_REQUEST, db).
Proof.
  intros Hu Hc Hs. unfold views.ContractViewSet_mark_completed, dispatch.
  rewrite Hu. orm. rewrite Hc. by rewrite decide_True.
Qed.

Lemma mark_completed_not_found
    (req : Request.t) (u : User.t) (pk : nat) (db : DB.t) :
  DB.users db !! Request.user req = Some u →
  DB.contracts db !! pk = None →
  views.ContractViewSet_mark_completed req pk db
  = (Response.mk (Response.detail "Not found.") status.HTTP_404_NOT_FOUND, db).
Proof.
  intros Hu Hc. unfold views.ContractViewSet_mark_completed, dispatch.
  rewrite Hu. orm. by rewrite Hc.
Qed.

Lemma partial_update_not_found
    (req : Request.t) (u : User.t) (pk : nat) (rating : option nat)
    (review : option string) (db : DB.t) :
  DB.users db !! Request.user req = Some u →
  views.ContractViewSet_get_queryset req u db !! pk = None →
  views.ContractViewSet_partial_update req pk rating review db
  = (Response.mk (Response.detail "Not found.") status.HTTP_404_NOT_FOUND, db).
Proof.
  intros Hu Hqs. unfold views.ContractViewSet_partial_update, dispatch.
  rewrite Hu. orm. unfold get_object. by rewrite Hqs.
Qed.

Lemma mark_as_read_not_found
    (req : Request.t) (u : User.t) (pk : nat) (db : DB.t) :
  DB.users db !! Request.user req = Some u →
  views.NotificationViewSet_get_queryset req db !! pk = None →
  views.NotificationViewSet_mark_as_read req pk db
  = (Response.mk (Response.error "Notification not found")
       status.HTTP_404_NOT_FOUND, db).
Proof.
  intros Hu Hqs. unfold views.NotificationViewSet_mark_as_read, dispatch.
  rewrite Hu. orm. by rewrite Hqs.
Qed.

Lemma mark_as_read_own
    (req : Request.t) (u : User.t) (pk : nat) (n : Notification.t) (db : DB.t) :
  DB.users db !! Request.user req = Some u →
  DB.notifications db !! pk = Some n →
  Notification.user n = Request.user req →
  views.NotificationViewSet_mark_as_read req pk db
  = (Response.mk (Response.message "Notification marked as read ✅")
       status.HTTP_200_OK,
     DB.set_notifications (insert pk (Notification.set_is_read true n)) db).
Proof.
  intros Hu Hn Hmine. unfold views.NotificationViewSet_mark_as_read, dispatch.
  rewrite Hu. orm.
  assert (views.NotificationViewSet_get_queryset req db !! pk = Some n) as ->.
  { by apply map_lookup_filter_Some. }
  reflexivity.
Qed.

(** When the receiver of [models.py] has run, the one of [signals.py] finds
    the contract and does nothing. *)
Lemma signals_receiver_after_models (pk : nat) (p : Proposal.t) (db db1 : DB.t) :
  models.create_contract_on_accept pk p db = (Return tt, db1) →
  signals.create_contract_on_accept pk p db1 = (Return tt, db1).
Proof.
  unfold models.create_contract_on_accept. case_decide as Hs.
  - destruct (map_to_list (Contract_objects_filter_proposal pk db))
      as [|[k c] [|row' rest]] eqn:Hrows.
    + apply map_to_list_empty_iff in Hrows. orm.
      rewrite hasattr_contract_none by done. cbn.
      destruct (DB.projects db !! Proposal.project p) as [pr|] eqn:Hpr; [|done].
      rewrite Contract_objects_create_fresh by done. cbn.
      intros [= <-].
      apply (signals_create_contract_on_accept_keeps pk (next_pk (DB.contracts db)) p
               (Contract.mk pk (Project.client pr) (Proposal.freelancer p)
                  (Proposal.bid_amount p) "Active" None None)).
      by apply filter_proposal_created.
    + assert (Contract_objects_filter_proposal pk db = {[k := c]}) as Hone.
      { rewrite <- (list_to_map_to_list (Contract_objects_filter_proposal pk db)),
          Hrows. cbn. by rewrite insert_empty. }
      orm. rewrite (hasattr_contract_one pk k c) by done. cbn.
      intros [= <-]. by apply (signals_create_contract_on_accept_keeps pk k p c).
    + unfold models.hasattr_contract. orm. unfold queryset_get. rewrite Hrows.
      orm. case_decide; done.
  - intros [= <-]. by apply signals_create_contract_on_accept_other_status.
Qed.

(** ** The two sets of receivers of a proposal *)

(** X1: for a proposal, connecting the receiver of [signals.py] on top of
    the one of [models.py] changes nothing: whatever the instance and the
    database, a save yields the same outcome and the same database with
    both receivers as with the first alone. *)
Theorem proposal_second_receiver_is_redundant
    (pk : nat) (instance : Proposal.t) (db : DB.t) :
  Proposal_save true pk instance db = Proposal_save false pk instance db.
Proof.
  unfold Proposal_save, Proposal_post_save. orm.
  destruct (models.create_contract_on_accept pk instance
              (DB.set_proposals (insert pk instance) db)) as [[[]|e] db1] eqn:Hmodels;
    [|done].
  by apply signals_receiver_after_models in Hmodels as ->.
Qed.

(** ** Keys that name no row *)

(** X2: a primary key that names no row is answered 404 and the database is
    left as it was: by [accept] for a proposal, by [mark_completed] and the
    inherited update for a contract, and by [mark_as_read] for a
    notification (with its own "Notification not found" body). *)
Theorem missing_rows_are_not_found
    (si : bool) (req : Request.t) (u : User.t) (pk : nat)
    (rating : option nat) (review : option string) (db : DB.t) :
  DB.users db !! Request.user req = Some u →
  DB.proposals db !! pk = None →
  DB.contracts db !! pk = None →
  DB.notifications db !! pk = None →
  views.ProposalViewSet_accept si req pk db
  = (Response.mk (Response.detail "Not found.") status.HTTP_404_NOT_FOUND, db)
  ∧ views.ContractViewSet_mark_completed req pk db
    = (Response.mk (Response.detail "Not found.") status.HTTP_404_NOT_FOUND, db)
  ∧ views.ContractViewSet_partial_update req pk rating review db
    = (Response.mk (Response.detail "Not found.") status.HTTP_404_NOT_FOUND, db)
  ∧ views.NotificationViewSet_mark_as_read req pk db
    = (Response.mk (Response.error "Notification not found")
         status.HTTP_404_NOT_FOUND, db).
Proof.
  intros Hu Hp Hc Hn. repeat split.
  - apply (accept_not_found si req u pk db Hu).
    unfold views.ProposalViewSet_get_queryset.
    destruct (User.is_client u); [|destruct (User.is_freelancer u)];
      [apply map_lookup_filter_None; by left..|apply lookup_empty].
  - by apply (mark_completed_not_found req u).
  - apply (partial_update_not_found req u pk rating review db Hu).
    unfold views.ContractViewSet_get_queryset.
    destruct (User.is_client u); [|destruct (User.is_freelancer u)];
      [apply map_lookup_filter_None; by left..|apply lookup_empty].
  - apply (mark_as_read_not_found req u pk db Hu).
    apply map_lookup_filter_None. by left.
Qed.

Lemma missing_rows_are_not_found_witness :
  views.ProposalViewSet_accept true (Request.mk alice) 7 example_db
  = (Response.mk (Response.detail "Not found.") status.HTTP_404_NOT_FOUND,
     example_db)
  ∧ views.ContractViewSet_mark_completed (Request.mk alice) 7 example_db
    = (Response.mk (Response.detail "Not found.") status.HTTP_404_NOT_FOUND,
       example_db)
  ∧ views.ContractViewSet_partial_update (Request.mk alice) 7 (Some 5) None
      example_db
    = (Response.mk (Response.detail "Not found.") status.HTTP_404_NOT_FOUND,
       example_db)
  ∧ views.NotificationViewSet_mark_as_read (Request.mk alice) 7 example_db
    = (Response.mk (Response.error "Notification not found")
         status.HTTP_404_NOT_FOUND, example_db).
Proof.
  apply (missing_rows_are_not_found true (Request.mk alice)
           (User.mk "alice" true false) 7 (Some 5) None example_db);
    reflexivity.
Defined.

(** ** [accept] on a consistent database *)

(** X3: on a database where the proposal's project exists and no proposal
    has two contracts, [accept] never ends in a server error: it answers
    200, 400, 403 or 404, and afterwards still no proposal has two
    contracts. *)
Theorem accept_answers_and_keeps_one_contract_per_proposal
    (si : bool) (req : Request.t) (u : User.t) (pk : nat) (db : DB.t) :
  DB.users db !! Request.user req = Some u →
  match DB.proposals db !! pk with
  | Some p => is_Some (DB.projects db !! Proposal.project p)
  | None => True
  end →
  (∀ q : nat, size (Contract_objects_filter_proposal q db) ≤ 1) →
  ∃ (response : Response.t) (db1 : DB.t),
    views.ProposalViewSet_accept si req pk db = (response, db1)
    ∧ Response.status response
      ∈ [status.HTTP_200_OK; status.HTTP_400_BAD_REQUEST;
         status.HTTP_403_FORBIDDEN; status.HTTP_404_NOT_FOUND]
    ∧ ∀ q : nat, size (Contract_objects_filter_proposal q db1) ≤ 1.
Proof.
  intros Hu Hproject Hunique.
  destruct (views.ProposalViewSet_get_queryset req u db !! pk) as [p|] eqn:Hqs.
  2: { eexists _, _. split; [by apply (accept_not_found si req u pk db)|].
       split; [cbn; set_solver|done]. }
  assert (DB.proposals db !! pk = Some p) as Hp.
  { unfold views.ProposalViewSet_get_queryset in Hqs.
    destruct (User.is_client u); [|destruct (User.is_freelancer u)].
    - by apply map_lookup_filter_Some in Hqs as [? _].
    - by apply map_lookup_filter_Some in Hqs as [? _].
    - by rewrite lookup_empty in Hqs. }
  rewrite Hp in Hproject. destruct Hproject as [pr Hpr].
  destruct (decide (Project.client pr = Request.user req)) as [Hclient|Hclient].
  2: { eexists _, _. split; [by apply (accept_forbidden si req u pk p pr db)|].
       split; [cbn; set_solver|done]. }
  destruct (decide (Proposal.status p = "Pending")) as [Hs|Hs].
  2: { eexists _, _. split; [by apply (accept_not_pending si req u pk p pr db)|].
       split; [cbn; set_solver|done]. }
  destruct (at_most_one _ (Hunique pk)) as [Hnone|(k & c & Hone)].
  - eexists _, _. split; [by apply (accept_creates si req u pk p pr db)|].
    split; [cbn; set_solver|]. intros q.
    change (size (Contract_objects_filter_proposal q
              (DB.set_contracts
                 (insert (next_pk (DB.contracts db))
                    (new_contract pk (Proposal.set_status "Accepted" p) pr))
                 db)) ≤ 1).
    destruct (decide (q = pk)) as [->|Hq].
    + rewrite (filter_proposal_created pk _ _ db) by done.
      by rewrite map_size_singleton.
    + rewrite (filter_proposal_other q pk) by (done || apply next_pk_fresh).
      apply Hunique.
  - eexists _, _. split; [by apply (accept_keeps si req u pk k p pr c db)|].
    split; [cbn; set_solver|]. intros q. apply Hunique.
Qed.

Lemma accept_answers_and_keeps_one_contract_per_proposal_witness :
  ∃ (response : Response.t) (db1 : DB.t),
    views.ProposalViewSet_accept true (Request.mk alice) 1 example_db
    = (response, db1)
    ∧ Response.status response
      ∈ [status.HTTP_200_OK; status.HTTP_400_BAD_REQUEST;
         status.HTTP_403_FORBIDDEN; status.HTTP_404_NOT_FOUND]
    ∧ ∀ q : nat, size (Contract_objects_filter_proposal q db1) ≤ 1.
Proof.
  apply (accept_answers_and_keeps_one_contract_per_proposal true
           (Request.mk alice) (User.mk "alice" true false) 1 example_db).
  - reflexivity.
  - vm_compute. eauto.
  - intros q. vm_compute. lia.
Defined.

(** ** [mark_completed] beside the other contract actions *)



(** X5: completing is final through this action: once [mark_completed] has
    completed a contract, a second call on it, by any authenticated user,
    is answered 400 and changes nothing, so the action never notifies twice
    for one contract. *)
Theorem mark_completed_twice
    (req req' : Request.t) (u u' : User.t) (pk : nat) (c : Contract.t)
    (p : Proposal.t) (pr : Project.t) (db : DB.t) :
  DB.users db !! Request.user req = Some u →
  DB.users db !! Request.user req' = Some u' →
  DB.contracts db !! pk = Some c →
  Contract.status c ≠ "Completed" →
  DB.proposals db !! Contract.proposal c = Some p →
  DB.projects db !! Proposal.project p = Some pr →
  ∃ (response : Response.t) (db1 : DB.t),
    views.ContractViewSet_mark_completed req pk db = (response, db1)
    ∧ Response.status response = status.HTTP_200_OK
    ∧ views.ContractViewSet_mark_completed req' pk db1
      = (Response.mk (Response.detail "Contract already completed.")
           status.HTTP_400_BAD_REQUEST, db1).
Proof.
  intros Hu Hu' Hc Hs Hp Hpr. eexists _, _.
  split; [by apply (mark_completed_completes req u pk c p pr db)|].
  split; [done|].
  apply (mark_completed_refused req' u' pk (Contract.set_status "Completed" c)).
  - exact Hu'.
  - cbn. apply lookup_insert_eq.
  - done.
Qed.

Lemma mark_completed_twice_witness :
  ∃ (response : Response.t) (db1 : DB.t),
    views.ContractViewSet_mark_completed (Request.mk alice) 1 example_active_db
    = (response, db1)
    ∧ Response.status response = status.HTTP_200_OK
    ∧ views.ContractViewSet_mark_completed (Request.mk bob) 1 db1
      = (Response.mk (Response.detail "Contract already completed.")
           status.HTTP_400_BAD_REQUEST, db1).
Proof.
  apply (mark_completed_twice (Request.mk alice) (Request.mk bob)
           (User.mk "alice" true false) (User.mk "bob" false true) 1
           (Contract.mk 1 alice bob 10000 "Active" None None)
           (Proposal.mk 1 bob "I can do it" 10000 "Accepted")
           (Project.mk alice "Site") example_active_db).
  - reflexivity.
  - reflexivity.
  - vm_compute. reflexivity.
  - vm_compute. discriminate.
  - vm_compute. reflexivity.
  - reflexivity.
Defined.

(** X6: [mark_completed] does not go through [get_queryset].  A user who
    is neither the client nor the freelancer of a contract cannot reach it
    with the inherited update, which answers 404 and changes nothing, yet
    the same user's [mark_completed] is answered 200 and completes it. *)
Theorem mark_completed_is_open_to_outsiders
    (req : Request.t) (u : User.t) (pk : nat) (c : Contract.t) (p : Proposal.t)
    (pr : Project.t) (rating : option nat) (review : option string) (db : DB.t) :
  DB.users db !! Request.user req = Some u →
  DB.contracts db !! pk = Some c →
  Contract.status c ≠ "Completed" →
  DB.proposals db !! Contract.proposal c = Some p →
  DB.projects db !! Proposal.project p = Some pr →
  Request.user req ≠ Contract.client c →
  Request.user req ≠ Contract.freelancer c →
  views.ContractViewSet_partial_update req pk rating review db
  = (Response.mk (Response.detail "Not found.") status.HTTP_404_NOT_FOUND, db)
  ∧ ∃ db1 : DB.t,
      views.ContractViewSet_mark_completed req pk db
      = (Response.mk (Response.contract_data pk (Contract.set_status "Completed" c))
           status.HTTP_200_OK, db1)
      ∧ DB.contracts db1 !! pk = Some (Contract.set_status "Completed" c).
Proof.
  intros Hu Hc Hs Hp Hpr Hclient Hfreelancer. split.
  - apply (partial_update_not_found req u pk rating review db Hu).
    unfold views.ContractViewSet_get_queryset.
    destruct (User.is_client u); [|destruct (User.is_freelancer u)].
    + apply map_lookup_filter_None. right. intros c0 Hc0. cbn. congruence.
    + apply map_lookup_filter_None. right. intros c0 Hc0. cbn. congruence.
    + apply lookup_empty.
  - eexists. split; [by apply (mark_completed_completes req u pk c p pr db)|].
    cbn. apply lookup_insert_eq.
Qed.

Lemma mark_completed_is_open_to_outsiders_witness :
  views.ContractViewSet_partial_update (Request.mk dave) 1 (Some 1) None
    example_active_db
  = (Response.mk (Response.detail "Not found.") status.HTTP_404_NOT_FOUND,
     example_active_db)
  ∧ ∃ db1 : DB.t,
      views.ContractViewSet_mark_completed (Request.mk dave) 1 example_active_db
      = (Response.mk
           (Response.contract_data 1
              (Contract.set_status "Completed"
                 (Contract.mk 1 alice bob 10000 "Active" None None)))
           status.HTTP_200_OK, db1)
      ∧ DB.contracts db1 !! 1
        = Some (Contract.set_status "Completed"
                  (Contract.mk 1 alice bob 10000 "Active" None None)).
Proof.
  apply (mark_completed_is_open_to_outsiders (Request.mk dave)
           (User.mk "dave" false true) 1
           (Contract.mk 1 alice bob 10000 "Active" None None)
           (Proposal.mk 1 bob "I can do it" 10000 "Accepted")
           (Project.mk alice "Site") (Some 1) None example_active_db).
  - reflexivity.
  - vm_compute. reflexivity.
  - vm_compute. discriminate.
  - vm_compute. reflexivity.
  - reflexivity.
  - vm_compute. lia.
  - vm_compute. lia.
Defined.

(** ** Posting a project and submitting a proposal *)

Lemma ProposalViewSet_perform_create_spec
    (si : bool) (req : Request.t) (data : views.ProposalData) (pr : Project.t)
    (db : DB.t) :
  DB.projects db !! views.data_project data = Some pr →
  default "Pending" (views.data_status data) ≠ "Accepted" →
  views.ProposalViewSet_perform_create si req data db
  = (Return (next_pk (DB.proposals db)),
     notify (proposal_notice (views.data_project data) pr)
       (DB.set_proposals
          (insert (next_pk (DB.proposals db)) (submitted_proposal req data)) db)).
Proof.
  intros Hpr Hs. unfold views.ProposalViewSet_perform_create, Proposal_objects_create.
  orm. fold (submitted_proposal req data).
  rewrite Proposal_save_other_status by done. cbn. rewrite Hpr. reflexivity.
Qed.

(** X7: submitting a proposal whose status is not "Accepted" (the default
    "Pending" when the data gives none) stores one new row, with the
    requesting user as freelancer whatever that user's role, creates no
    contract, and creates exactly one notification, addressed to the client
    of the project. *)
Theorem submit_proposal_notifies_client
    (si : bool) (req : Request.t) (data : views.ProposalData) (pr : Project.t)
    (db : DB.t) :
  DB.projects db !! views.data_project data = Some pr →
  default "Pending" (views.data_status data) ≠ "Accepted" →
  ∃ (pk : nat) (db1 : DB.t),
    views.ProposalViewSet_perform_create si req data db = (Return pk, db1)
    ∧ DB.proposals db !! pk = None
    ∧ DB.proposals db1 = <[pk := submitted_proposal req data]> (DB.proposals db)
    ∧ Proposal.freelancer (submitted_proposal req data) = Request.user req
    ∧ DB.contracts db1 = DB.contracts db
    ∧ size (DB.notifications db1) = size (DB.notifications db) + 1
    ∧ ∀ x : nat,
        addressed_to x db1
        = addressed_to x db + (if decide (Project.client pr = x) then 1 else 0).
Proof.
  intros Hpr Hs. eexists _, _.
  split; [by apply (ProposalViewSet_perform_create_spec si req data pr db)|].
  split; [apply next_pk_fresh|]. split; [done|]. split; [done|]. split; [done|].
  split.
  - rewrite size_notifications_notify. cbn. lia.
  - intros x. by rewrite addressed_to_notify.
Qed.

Lemma submit_proposal_notifies_client_witness :
  ∃ (pk : nat) (db1 : DB.t),
    views.ProposalViewSet_perform_create true (Request.mk dave)
      (views.Build_ProposalData 1 "Mine is cheaper" 9000 None) example_db
    = (Return pk, db1)
    ∧ DB.proposals example_db !! pk = None
    ∧ DB.proposals db1
      = <[pk := submitted_proposal (Request.mk dave)
                  (views.Build_ProposalData 1 "Mine is cheaper" 9000 None)]>
          (DB.proposals example_db)
    ∧ Proposal.freelancer
        (submitted_proposal (Request.mk dave)
           (views.Build_ProposalData 1 "Mine is cheaper" 9000 None))
      = dave
    ∧ DB.contracts db1 = DB.contracts example_db
    ∧ size (DB.notifications db1) = size (DB.notifications example_db) + 1
    ∧ ∀ x : nat,
        addressed_to x db1
        = addressed_to x example_db + (if decide (alice = x) then 1 else 0).
Proof.
  apply (submit_proposal_notifies_client true (Request.mk dave)
           (views.Build_ProposalData 1 "Mine is cheaper" 9000 None)
           (Project.mk alice "Site") example_db).
  - reflexivity.
  - vm_compute. discriminate.
Defined.

(** X8: a submitted proposal can be accepted at once.  When a proposal is
    submitted without a status on a project whose client has the client
    flag, and no contract points at the key the store hands out for it, the
    client's [accept] on the new proposal is answered 200 and leaves the
    proposal "Accepted" with an active contract between the client and the
    submitter, paying the submitted bid. *)
Theorem submit_then_accept
    (si : bool) (req : Request.t) (data : views.ProposalData) (pr : Project.t)
    (uc : User.t) (db : DB.t) :
  DB.projects db !! views.data_project data = Some pr →
  views.data_status data = None →
  DB.users db !! Project.client pr = Some uc →
  User.is_client uc = true →
  Contract_objects_filter_proposal (next_pk (DB.proposals db)) db = ∅ →
  ∃ (pk k : nat) (db1 db2 : DB.t),
    views.ProposalViewSet_perform_create si req data db = (Return pk, db1)
    ∧ views.ProposalViewSet_accept si (Request.mk (Project.client pr)) pk db1
      = (Response.mk (Response.accepted "Proposal accepted" k) status.HTTP_200_OK,
         db2)
    ∧ DB.proposals db2 !! pk
      = Some (Proposal.mk (views.data_project data) (Request.user req)
                (views.data_proposal_text data) (views.data_bid_amount data)
                "Accepted")
    ∧ DB.contracts db2 !! k
      = Some (Contract.mk pk (Project.client pr) (Request.user req)
                (views.data_bid_amount data) "Active" None None)
    ∧ Contract_objects_filter_proposal pk db2
      = {[k := Contract.mk pk (Project.client pr) (Request.user req)
                 (views.data_bid_amount data) "Active" None None]}.
Proof.
  intros Hpr Hstatus Huc Hflag Hnone.
  set (pk := next_pk (DB.proposals db)).
  set (p := submitted_proposal req data).
  set (db1 := notify (proposal_notice (views.data_project data) pr)
                (DB.set_proposals (insert pk p) db)).
  assert (Proposal.status p = "Pending") as Hpending.
  { unfold p, submitted_proposal. cbn. by rewrite Hstatus. }
  eexists pk, _, db1, _.
  split.
  { apply (ProposalViewSet_perform_create_spec si req data pr db Hpr).
    rewrite Hstatus. discriminate. }
  split.
  { apply (accept_creates si (Request.mk (Project.client pr)) uc pk p pr db1).
    - exact Huc.
    - unfold views.ProposalViewSet_get_queryset. rewrite Hflag.
      apply map_lookup_filter_Some. split.
      + cbn. apply lookup_insert_eq.
      + cbn. by rewrite Hpr.
    - exact Hpr.
    - reflexivity.
    - exact Hpending.
    - exact Hnone. }
  split; [cbn; apply lookup_insert_eq|].
  split; [cbn; apply lookup_insert_eq|].
  by apply (filter_proposal_created pk).
Qed.

Lemma submit_then_accept_witness :
  ∃ (pk k : nat) (db1 db2 : DB.t),
    views.ProposalViewSet_perform_create true (Request.mk dave)
      (views.Build_ProposalData 1 "Mine is cheaper" 9000 None) example_db
    = (Return pk, db1)
    ∧ views.ProposalViewSet_accept true (Request.mk alice) pk db1
      = (Response.mk (Response.accepted "Proposal accepted" k) status.HTTP_200_OK,
         db2)
    ∧ DB.proposals db2 !! pk
      = Some (Proposal.mk 1 dave "Mine is cheaper" 9000 "Accepted")
    ∧ DB.contracts db2 !! k
      = Some (Contract.mk pk alice dave 9000 "Active" None None)
    ∧ Contract_objects_filter_proposal pk db2
      = {[k := Contract.mk pk alice dave 9000 "Active" None None]}.
Proof.
  apply (submit_then_accept true (Request.mk dave)
           (views.Build_ProposalData 1 "Mine is cheaper" 9000 None)
           (Project.mk alice "Site") (User.mk "alice" true false) example_db).
  - reflexivity.
  - reflexivity.
  - reflexivity.
  - reflexivity.
  - vm_compute. reflexivity.
Defined.

(** X9: posting a project stores it under a new key with the requesting
    user as its client and creates exactly one notification, addressed to
    that same user.  The poster finds the project in the project queryset
    exactly when the poster has the client or the freelancer flag; any
    other user with the client flag does not find it, and every user with
    the freelancer flag alone does. *)
Theorem post_project_and_who_sees_it
    (req : Request.t) (title : string) (db : DB.t) :
  ∃ (pk : nat) (db1 : DB.t),
    views.ProjectViewSet_perform_create req title db = (Return pk, db1)
    ∧ DB.projects db !! pk = None
    ∧ DB.projects db1 = <[pk := Project.mk (Request.user req) title]> (DB.projects db)
    ∧ size (DB.notifications db1) = size (DB.notifications db) + 1
    ∧ (∀ x : nat,
         addressed_to x db1
         = addressed_to x db + (if decide (Request.user req = x) then 1 else 0))
    ∧ ∀ (req' : Request.t) (u' : User.t),
        views.ProjectViewSet_get_queryset req' u' db1 !! pk
        = if User.is_client u'
          then (if decide (Request.user req' = Request.user req)
                then Some (Project.mk (Request.user req) title) else None)
          else if User.is_freelancer u'
               then Some (Project.mk (Request.user req) title) else None.
Proof.
  exists (next_pk (DB.projects db)),
    (notify (project_notice (Request.user req) (next_pk (DB.projects db)) title)
       (DB.set_projects
          (insert (next_pk (DB.projects db)) (Project.mk (Request.user req) title))
          db)).
  split; [reflexivity|].
  split; [apply next_pk_fresh|]. split; [reflexivity|].
  split; [rewrite size_notifications_notify; cbn; lia|].
  split; [intros x; by rewrite addressed_to_notify|].
  intros req' u'. unfold views.ProjectViewSet_get_queryset. cbn.
  destruct (User.is_client u'); [|destruct (User.is_freelancer u')].
  - case_decide as Hsame.
    + apply map_lookup_filter_Some. split; [apply lookup_insert_eq|done].
    + apply map_lookup_filter_None. right. intros pr Hpr.
      rewrite lookup_insert_eq in Hpr. injection Hpr as <-. cbn. congruence.
  - apply lookup_insert_eq.
  - apply lookup_empty.
Qed.

(** ** Who can read a message *)

Lemma message_queryset_lookup
    (req : Request.t) (k : nat) (m : Message.t) (c : Contract.t) (db : DB.t) :
  DB.messages db !! k = Some m →
  DB.contracts db !! Message.contract m = Some c →
  views.MessageViewSet_get_queryset req db !! k
  = if decide (Request.user req = Contract.client c
               ∨ Request.user req = Contract.freelancer c)
    then Some m else None.
Proof.
  intros Hm Hc. unfold views.MessageViewSet_get_queryset.
  rewrite lookup_union, !map_lookup_filter, Hm. cbn. rewrite Hc. cbn.
  repeat case_guard; case_decide; cbn; try done; exfalso; intuition congruence.
Qed.

(** X10: a stored message is in a user's message queryset exactly when the
    user is the client or the freelancer of the message's contract.  So
    after any user has sent a message on a contract, both parties can read
    it, and the sender can read it back only when the sender is a party. *)
Theorem sent_message_is_visible_to_parties_only
    (si : bool) (req : Request.t) (data : views.MessageData) (u : User.t)
    (c : Contract.t) (p : Proposal.t) (pr : Project.t) (db : DB.t) :
  DB.users db !! Request.user req = Some u →
  DB.contracts db !! views.data_contract data = Some c →
  DB.proposals db !! Contract.proposal c = Some p →
  DB.projects db !! Proposal.project p = Some pr →
  ∃ (mk : nat) (m : Message.t) (db1 : DB.t),
    views.MessageViewSet_create si req data db
    = (Response.mk (Response.message_data mk m) status.HTTP_201_CREATED, db1)
    ∧ Message.sender m = Request.user req
    ∧ ∀ reader : Request.t,
        views.MessageViewSet_get_queryset reader db1 !! mk
        = if decide (Request.user reader = Contract.client c
                     ∨ Request.user reader = Contract.freelancer c)
          then Some m else None.
Proof.
  intros Hu Hc Hp Hpr. eexists _, _, _.
  split; [by apply (MessageViewSet_create_spec si req data u c p pr db)|].
  split; [done|]. intros reader.
  apply message_queryset_lookup.
  - cbn. destruct si; cbn; apply lookup_insert_eq.
  - cbn. destruct si; cbn; exact Hc.
Qed.

Lemma sent_message_is_visible_to_parties_only_witness :
  ∃ (mk : nat) (m : Message.t) (db1 : DB.t),
    views.MessageViewSet_create false (Request.mk dave)
      (views.Build_MessageData 1 bob "Hello") example_active_db
    = (Response.mk (Response.message_data mk m) status.HTTP_201_CREATED, db1)
    ∧ Message.sender m = dave
    ∧ ∀ reader : Request.t,
        views.MessageViewSet_get_queryset reader db1 !! mk
        = if decide (Request.user reader = alice ∨ Request.user reader = bob)
          then Some m else None.
Proof.
  apply (sent_message_is_visible_to_parties_only false (Request.mk dave)
           (views.Build_MessageData 1 bob "Hello") (User.mk "dave" false true)
           (Contract.mk 1 alice bob 10000 "Active" None None)
           (Proposal.mk 1 bob "I can do it" 10000 "Accepted")
           (Project.mk alice "Site") example_active_db).
  - reflexivity.
  - vm_compute. reflexivity.
  - vm_compute. reflexivity.
  - reflexivity.
Defined.

(** ** Read and unread notifications *)

Lemma mark_all_as_read_spec (req : Request.t) (u : User.t) (db : DB.t) :
  DB.users db !! Request.user req = Some u →
  views.NotificationViewSet_mark_all_as_read req db
  = (Response.mk
       (Response.message
          (pretty (size (views.NotificationViewSet_unread req db))
             +:+ " notifications marked as read ✅"))
       status.HTTP_200_OK,
     DB.set_notifications
       (λ table, (Notification.set_is_read true
                    <$> views.NotificationViewSet_unread req db) ∪ table)
       db).
Proof.
  intros Hu. unfold views.NotificationViewSet_mark_all_as_read, dispatch.
  rewrite Hu. reflexivity.
Qed.

Lemma update_unread_is_read_by (req : Request.t) (db : DB.t) :
  (Notification.set_is_read true <$> views.NotificationViewSet_unread req db)
    ∪ DB.notifications db
  = read_by (Request.user req) <$> DB.notifications db.
Proof.
  apply map_eq. intros k.
  unfold views.NotificationViewSet_unread, views.NotificationViewSet_get_queryset.
  rewrite lookup_union, !lookup_fmap, !map_lookup_filter.
  destruct (DB.notifications db !! k) as [n|]; [|done]. cbn.
  unfold read_by. case_guard as Hmine; cbn; [|done].
  case_guard as Hunread; cbn; [done|].
  destruct n as [nu nm nl nt []]; cbn in *; done.
Qed.

Lemma unread_after_read_by (req : Request.t) (db db1 : DB.t) :
  DB.notifications db1 = read_by (Request.user req) <$> DB.notifications db →
  views.NotificationViewSet_unread req db1 = ∅.
Proof.
  intros Hdb1. apply map_eq. intros k. rewrite lookup_empty.
  unfold views.NotificationViewSet_unread, views.NotificationViewSet_get_queryset.
  apply map_lookup_filter_None. right. intros n' Hn'. cbn.
  apply map_lookup_filter_Some in Hn' as [Hn' Hmine]. cbn in Hmine.
  rewrite Hdb1, lookup_fmap in Hn'.
  destruct (DB.notifications db !! k) as [n|]; [|done].
  injection Hn' as <-. unfold read_by in *.
  case_decide; cbn in *; [discriminate|done].
Qed.

(** X11: [mark_all_as_read] reports how many of the user's notifications
    were unread, and writes exactly those: afterwards the user has no
    unread notification, every notification addressed to someone else is
    untouched, no row is added or removed, and a row of the user differs
    from before in [is_read] only. *)
Theorem mark_all_as_read_clears_unread (req : Request.t) (u : User.t) (db : DB.t) :
  DB.users db !! Request.user req = Some u →
  ∃ db1 : DB.t,
    views.NotificationViewSet_mark_all_as_read req db
    = (Response.mk
         (Response.message
            (pretty (size (views.NotificationViewSet_unread req db))
               +:+ " notifications marked as read ✅"))
         status.HTTP_200_OK, db1)
    ∧ views.NotificationViewSet_unread req db1 = ∅
    ∧ dom (DB.notifications db1) = dom (DB.notifications db)
    ∧ ∀ (k : nat) (n : Notification.t),
        DB.notifications db !! k = Some n →
        DB.notifications db1 !! k
        = Some (if decide (Notification.user n = Request.user req)
                then Notification.set_is_read true n else n).
Proof.
  intros Hu. eexists. split; [by apply (mark_all_as_read_spec req u)|].
  split.
  { apply (unread_after_read_by req db). cbn. apply update_unread_is_read_by. }
  cbn. rewrite update_unread_is_read_by.
  split; [apply dom_fmap_L|].
  intros k n Hn. by rewrite lookup_fmap, Hn.
Qed.

Lemma mark_all_as_read_clears_unread_witness :
  ∃ db1 : DB.t,
    views.NotificationViewSet_mark_all_as_read (Request.mk bob) example_completed_db
    = (Response.mk
         (Response.message
            (pretty (size (views.NotificationViewSet_unread (Request.mk bob)
                             example_completed_db))
               +:+ " notifications marked as read ✅"))
         status.HTTP_200_OK, db1)
    ∧ views.NotificationViewSet_unread (Request.mk bob) db1 = ∅
    ∧ dom (DB.notifications db1) = dom (DB.notifications example_completed_db)
    ∧ ∀ (k : nat) (n : Notification.t),
        DB.notifications example_completed_db !! k = Some n →
        DB.notifications db1 !! k
        = Some (if decide (Notification.user n = Request.user (Request.mk bob))
                then Notification.set_is_read true n else n).
Proof.
  apply (mark_all_as_read_clears_unread (Request.mk bob) (User.mk "bob" false true)
           example_completed_db).
  reflexivity.
Defined.

(** Bob has three unread notifications after the completion. *)
Example mark_all_as_read_counts_three :
  (views.NotificationViewSet_mark_all_as_read (Request.mk bob) example_completed_db).1
  = Response.mk (Response.message "3 notifications marked as read ✅")
      status.HTTP_200_OK.
Proof. vm_compute. reflexivity. Qed.

(** X12: [mark_all_as_read] is idempotent: a second call right after the
    first reports 0 notifications and leaves the database as the first
    call left it. *)
Theorem mark_all_as_read_twice (req : Request.t) (u : User.t) (db : DB.t) :
  DB.users db !! Request.user req = Some u →
  ∃ (response : Response.t) (db1 : DB.t),
    views.NotificationViewSet_mark_all_as_read req db = (response, db1)
    ∧ views.NotificationViewSet_mark_all_as_read req db1
      = (Response.mk (Response.message "0 notifications marked as read ✅")
           status.HTTP_200_OK, db1).
Proof.
  intros Hu. eexists _, _. split; [by apply (mark_all_as_read_spec req u)|].
  set (db1 := DB.set_notifications _ db).
  rewrite (mark_all_as_read_spec req u db1) by done.
  assert (views.NotificationViewSet_unread req db1 = ∅) as ->.
  { apply (unread_after_read_by req db). cbn. apply update_unread_is_read_by. }
  rewrite fmap_empty, map_size_empty. f_equal.
  destruct db1. unfold DB.set_notifications. cbn. by rewrite (left_id_L ∅ (∪)).
Qed.

Lemma mark_all_as_read_twice_witness :
  ∃ (response : Response.t) (db1 : DB.t),
    views.NotificationViewSet_mark_all_as_read (Request.mk bob) example_completed_db
    = (response, db1)
    ∧ views.NotificationViewSet_mark_all_as_read (Request.mk bob) db1
      = (Response.mk (Response.message "0 notifications marked as read ✅")
           status.HTTP_200_OK, db1).
Proof.
  apply (mark_all_as_read_twice (Request.mk bob) (User.mk "bob" false true)
           example_completed_db).
  reflexivity.
Defined.

(** X13: the unread and the read list split the user's notifications: no
    notification is in both, and together they are the user's queryset. *)
Theorem unread_and_read_partition (req : Request.t) (db : DB.t) :
  views.NotificationViewSet_unread req db ##ₘ views.NotificationViewSet_read req db
  ∧ views.NotificationViewSet_unread req db ∪ views.NotificationViewSet_read req db
    = views.NotificationViewSet_get_queryset req db.
Proof.
  unfold views.NotificationViewSet_unread, views.NotificationViewSet_read.
  set (qs := views.NotificationViewSet_get_queryset req db). split.
  - apply map_disjoint_spec. intros k n n' Hn Hn'.
    apply map_lookup_filter_Some in Hn as [Hn Hunread].
    apply map_lookup_filter_Some in Hn' as [Hn' Hread].
    cbn in *. congruence.
  - apply map_eq. intros k. rewrite lookup_union, !map_lookup_filter.
    destruct (qs !! k) as [n|]; [|done]. cbn.
    destruct (Notification.is_read n); repeat case_guard; cbn; done.
Qed.

(** X14: [mark_as_read] on one's own notification moves it from the unread
    list to the read list and moves nothing else: the unread list loses
    that key, the read list gains the row with [is_read] set. *)
Theorem mark_as_read_moves_to_read
    (req : Request.t) (u : User.t) (pk : nat) (n : Notification.t) (db : DB.t) :
  DB.users db !! Request.user req = Some u →
  DB.notifications db !! pk = Some n →
  Notification.user n = Request.user req →
  ∃ (response : Response.t) (db1 : DB.t),
    views.NotificationViewSet_mark_as_read req pk db = (response, db1)
    ∧ Response.status response = status.HTTP_200_OK
    ∧ views.NotificationViewSet_unread req db1
      = delete pk (views.NotificationViewSet_unread req db)
    ∧ views.NotificationViewSet_read req db1
      = <[pk := Notification.set_is_read true n]>
          (views.NotificationViewSet_read req db).
Proof.
  intros Hu Hn Hmine. eexists _, _.
  split; [by apply (mark_as_read_own req u pk n db)|]. split; [done|].
  unfold views.NotificationViewSet_unread, views.NotificationViewSet_read,
    views.NotificationViewSet_get_queryset. cbn.
  rewrite (map_filter_insert_True
             (λ row, Notification.user row.2 = Request.user req)) by done.
  split.
  - rewrite map_filter_insert_False by (cbn; discriminate).
    by rewrite map_filter_delete.
  - by rewrite map_filter_insert_True.
Qed.

Lemma mark_as_read_moves_to_read_witness :
  ∃ (response : Response.t) (db1 : DB.t),
    views.NotificationViewSet_mark_as_read (Request.mk bob) 1 example_active_db
    = (response, db1)
    ∧ Response.status response = status.HTTP_200_OK
    ∧ views.NotificationViewSet_unread (Request.mk bob) db1
      = delete 1 (views.NotificationViewSet_unread (Request.mk bob) example_active_db)
    ∧ views.NotificationViewSet_read (Request.mk bob) db1
      = <[1 := Notification.set_is_read true
                 (acceptance_notification
                    (Proposal.mk 1 bob "I can do it" 10000 "Pending")
                    (Project.mk alice "Site") 1)]>
          (views.NotificationViewSet_read (Request.mk bob) example_active_db).
Proof.
  apply (mark_as_read_moves_to_read (Request.mk bob) (User.mk "bob" false true) 1
           (acceptance_notification (Proposal.mk 1 bob "I can do it" 10000 "Pending")
              (Project.mk alice "Site") 1)
           example_active_db).
  - reflexivity.
  - vm_compute. reflexivity.
  - reflexivity.
Defined.

(** ** Profiles *)

Lemma ClientProfile_filter_created (user k : nat) (row : ClientProfile.t) (st : Profiles.t) :
  ClientProfile_objects_filter_user user st = ∅ →
  ClientProfile.user row = user →
  ClientProfile_objects_filter_user user
    (Profiles.set_client_profiles (insert k row) st) = {[k := row]}.
Proof.
  unfold ClientProfile_objects_filter_user. cbn. intros Hnone Huser.
  rewrite map_filter_insert_True by done. by rewrite Hnone, insert_empty.
Qed.

Lemma FreelancerProfile_filter_created
    (user k : nat) (row : FreelancerProfile.t) (st : Profiles.t) :
  FreelancerProfile_objects_filter_user user st = ∅ →
  FreelancerProfile.user row = user →
  FreelancerProfile_objects_filter_user user
    (Profiles.set_freelancer_profiles (insert k row) st) = {[k := row]}.
Proof.
  unfold FreelancerProfile_objects_filter_user. cbn. intros Hnone Huser.
  rewrite map_filter_insert_True by done. by rewrite Hnone, insert_empty.
Qed.

Lemma ClientProfile_objects_create_fresh (row : ClientProfile.t) (st : Profiles.t) :
  ClientProfile_objects_filter_user (ClientProfile.user row) st = ∅ →
  ClientProfile_objects_create row st
  = (Return (next_pk (Profiles.client_profiles st), row),
     Profiles.set_client_profiles
       (insert (next_pk (Profiles.client_profiles st)) row) st).
Proof.
  intros Hnone. unfold ClientProfile_objects_create.
  by rewrite Hnone, queryset_exists_empty.
Qed.

Lemma FreelancerProfile_objects_create_fresh
    (row : FreelancerProfile.t) (st : Profiles.t) :
  FreelancerProfile_objects_filter_user (FreelancerProfile.user row) st = ∅ →
  FreelancerProfile_objects_create row st
  = (Return (next_pk (Profiles.freelancer_profiles st), row),
     Profiles.set_freelancer_profiles
       (insert (next_pk (Profiles.freelancer_profiles st)) row) st).
Proof.
  intros Hnone. unfold FreelancerProfile_objects_create.
  by rewrite Hnone, queryset_exists_empty.
Qed.

Lemma ClientProfileView_get_object_found
    (req : Request.t) (u : User.t) (email : string) (k : nat)
    (row : ClientProfile.t) (st : Profiles.t) :
  ClientProfile_objects_filter_user (Request.user req) st = {[k := row]} →
  views.ClientProfileView_get_object req u email st = (Return (k, row), st).
Proof.
  intros Hone.
  unfold views.ClientProfileView_get_object, ClientProfile_objects_get_or_create.
  by rewrite Hone, map_to_list_singleton.
Qed.

Lemma ClientProfileView_get_object_created
    (req : Request.t) (u : User.t) (email : string) (st : Profiles.t) :
  ClientProfile_objects_filter_user (Request.user req) st = ∅ →
  views.ClientProfileView_get_object req u email st
  = (Return (next_pk (Profiles.client_profiles st),
             ClientProfile.mk (Request.user req) (User.username u) "" email),
     Profiles.set_client_profiles
       (insert (next_pk (Profiles.client_profiles st))
          (ClientProfile.mk (Request.user req) (User.username u) "" email)) st).
Proof.
  intros Hnone.
  unfold views.ClientProfileView_get_object, ClientProfile_objects_get_or_create.
  rewrite Hnone, map_to_list_empty.
  by rewrite ClientProfile_objects_create_fresh.
Qed.

Lemma FreelancerProfileView_get_object_found
    (req : Request.t) (k : nat) (row : FreelancerProfile.t) (st : Profiles.t) :
  FreelancerProfile_objects_filter_user (Request.user req) st = {[k := row]} →
  views.FreelancerProfileView_get_object req st = (Return (k, row), st).
Proof.
  intros Hone.
  unfold views.FreelancerProfileView_get_object,
    FreelancerProfile_objects_get_or_create.
  by rewrite Hone, map_to_list_singleton.
Qed.

Lemma FreelancerProfileView_get_object_created (req : Request.t) (st : Profiles.t) :
  FreelancerProfile_objects_filter_user (Request.user req) st = ∅ →
  views.FreelancerProfileView_get_object req st
  = (Return (next_pk (Profiles.freelancer_profiles st),
             FreelancerProfile.mk (Request.user req) "" "" 0 true),
     Profiles.set_freelancer_profiles
       (insert (next_pk (Profiles.freelancer_profiles st))
          (FreelancerProfile.mk (Request.user req) "" "" 0 true)) st).
Proof.
  intros Hnone.
  unfold views.FreelancerProfileView_get_object,
    FreelancerProfile_objects_get_or_create.
  rewrite Hnone, map_to_list_empty.
  by rewrite FreelancerProfile_objects_create_fresh.
Qed.

(** X15: the client profile view gets or creates.  When the user has at
    most one client profile, the view returns a profile of that user and
    afterwards the user has exactly that one; a user without a profile gets
    a new row with the username as company name, an empty bio and the
    user's email, and otherwise nothing is written.  A second call, even
    with another username or email on the user, returns the same profile
    and writes nothing. *)
Theorem client_profile_get_object_idempotent
    (req : Request.t) (u u' : User.t) (email email' : string) (st : Profiles.t) :
  size (ClientProfile_objects_filter_user (Request.user req) st) ≤ 1 →
  ∃ (pk : nat) (profile : ClientProfile.t) (st1 : Profiles.t),
    views.ClientProfileView_get_object req u email st = (Return (pk, profile), st1)
    ∧ ClientProfile_objects_filter_user (Request.user req) st1 = {[pk := profile]}
    ∧ (if decide (ClientProfile_objects_filter_user (Request.user req) st = ∅)
       then profile = ClientProfile.mk (Request.user req) (User.username u) "" email
            ∧ Profiles.client_profiles st !! pk = None
            ∧ st1 = Profiles.set_client_profiles (insert pk profile) st
       else st1 = st)
    ∧ views.ClientProfileView_get_object req u' email' st1
      = (Return (pk, profile), st1).
Proof.
  intros Hunique.
  destruct (at_most_one _ Hunique) as [Hnone|(k & row & Hone)].
  - eexists _, _, _.
    split; [by apply ClientProfileView_get_object_created|].
    split; [by apply ClientProfile_filter_created|].
    split.
    { rewrite decide_True by done.
      split; [done|]. split; [apply next_pk_fresh|done]. }
    apply ClientProfileView_get_object_found.
    by apply ClientProfile_filter_created.
  - exists k, row, st.
    split; [by apply ClientProfileView_get_object_found|].
    split; [done|]. split.
    { rewrite decide_False; [done|]. rewrite Hone.
      intros Hempty. apply (f_equal (λ m : gmap nat ClientProfile.t, m !! k)) in Hempty.
      by rewrite lookup_singleton_eq, lookup_empty in Hempty. }
    by apply ClientProfileView_get_object_found.
Qed.

Lemma client_profile_get_object_idempotent_witness :
  ∃ (pk : nat) (profile : ClientProfile.t) (st1 : Profiles.t),
    views.ClientProfileView_get_object (Request.mk alice)
      (User.mk "alice" true false) "alice@example.org" no_profiles
    = (Return (pk, profile), st1)
    ∧ ClientProfile_objects_filter_user alice st1 = {[pk := profile]}
    ∧ (if decide (ClientProfile_objects_filter_user alice no_profiles = ∅)
       then profile = ClientProfile.mk alice "alice" "" "alice@example.org"
            ∧ Profiles.client_profiles no_profiles !! pk = None
            ∧ st1 = Profiles.set_client_profiles (insert pk profile) no_profiles
       else st1 = no_profiles)
    ∧ views.ClientProfileView_get_object (Request.mk alice)
        (User.mk "alice2" true false) "alice@example.com" st1
      = (Return (pk, profile), st1).
Proof.
  apply (client_profile_get_object_idempotent (Request.mk alice)
           (User.mk "alice" true false) (User.mk "alice2" true false)
           "alice@example.org" "alice@example.com" no_profiles).
  vm_compute. lia.
Defined.

(** X16: the freelancer profile view gets or creates in the same way: a
    user without a freelancer profile gets a new row with empty portfolio
    and skills, an hourly rate of 0 and availability on; a second call
    returns the same profile and writes nothing. *)
Theorem freelancer_profile_get_object_idempotent (req : Request.t) (st : Profiles.t) :
  size (FreelancerProfile_objects_filter_user (Request.user req) st) ≤ 1 →
  ∃ (pk : nat) (profile : FreelancerProfile.t) (st1 : Profiles.t),
    views.FreelancerProfileView_get_object req st = (Return (pk, profile), st1)
    ∧ FreelancerProfile_objects_filter_user (Request.user req) st1 = {[pk := profile]}
    ∧ (if decide (FreelancerProfile_objects_filter_user (Request.user req) st = ∅)
       then profile = FreelancerProfile.mk (Request.user req) "" "" 0 true
            ∧ Profiles.freelancer_profiles st !! pk = None
            ∧ st1 = Profiles.set_freelancer_profiles (insert pk profile) st
       else st1 = st)
    ∧ views.FreelancerProfileView_get_object req st1 = (Return (pk, profile), st1).
Proof.
  intros Hunique.
  destruct (at_most_one _ Hunique) as [Hnone|(k & row & Hone)].
  - eexists _, _, _.
    split; [by apply FreelancerProfileView_get_object_created|].
    split; [by apply FreelancerProfile_filter_created|].
    split.
    { rewrite decide_True by done.
      split; [done|]. split; [apply next_pk_fresh|done]. }
    apply FreelancerProfileView_get_object_found.
    by apply FreelancerProfile_filter_created.
  - exists k, row, st.
    split; [by apply FreelancerProfileView_get_object_found|].
    split; [done|]. split.
    { rewrite decide_False; [done|]. rewrite Hone.
      intros Hempty.
      apply (f_equal (λ m : gmap nat FreelancerProfile.t, m !! k)) in Hempty.
      by rewrite lookup_singleton_eq, lookup_empty in Hempty. }
    by apply FreelancerProfileView_get_object_found.
Qed.

Lemma freelancer_profile_get_object_idempotent_witness :
  ∃ (pk : nat) (profile : FreelancerProfile.t) (st1 : Profiles.t),
    views.FreelancerProfileView_get_object (Request.mk bob) no_profiles
    = (Return (pk, profile), st1)
    ∧ FreelancerProfile_objects_filter_user bob st1 = {[pk := profile]}
    ∧ (if decide (FreelancerProfile_objects_filter_user bob no_profiles = ∅)
       then profile = FreelancerProfile.mk bob "" "" 0 true
            ∧ Profiles.freelancer_profiles no_profiles !! pk = None
            ∧ st1 = Profiles.set_freelancer_profiles (insert pk profile) no_profiles
       else st1 = no_profiles)
    ∧ views.FreelancerProfileView_get_object (Request.mk bob) st1
      = (Return (pk, profile), st1).
Proof.
  apply (freelancer_profile_get_object_idempotent (Request.mk bob) no_profiles).
  vm_compute. lia.
Defined.

(** X17: what [create_user_profile] gives a user who has no profile yet.
    On creation, a user with the freelancer flag gets a freelancer profile
    and no client profile, even with the client flag set as well; a user
    with the client flag alone gets a client profile named after the
    username; a user with neither flag gets nothing.  On a later save of
    the user nothing is written. *)
Theorem create_user_profile_by_role
    (pk : nat) (instance : User.t) (email : string) (st : Profiles.t) :
  ClientProfile_objects_filter_user pk st = ∅ →
  FreelancerProfile_objects_filter_user pk st = ∅ →
  ∃ st1 : Profiles.t,
    signals.create_user_profile pk instance email true st = (Return tt, st1)
    ∧ FreelancerProfile_objects_filter_user pk st1
      = (if User.is_freelancer instance
         then {[next_pk (Profiles.freelancer_profiles st)
                := FreelancerProfile.mk pk "" "" 0 true]}
         else ∅)
    ∧ ClientProfile_objects_filter_user pk st1
      = (if negb (User.is_freelancer instance) && User.is_client instance
         then {[next_pk (Profiles.client_profiles st)
                := ClientProfile.mk pk (User.username instance) "" email]}
         else ∅)
    ∧ signals.create_user_profile pk instance email false st = (Return tt, st).
Proof.
  intros Hclient Hfreelancer. unfold signals.create_user_profile.
  destruct (User.is_freelancer instance); [|destruct (User.is_client instance)].
  - rewrite FreelancerProfile_objects_create_fresh by done.
    eexists. split; [reflexivity|].
    split; [by apply FreelancerProfile_filter_created|]. split; [|done].
    exact Hclient.
  - rewrite ClientProfile_objects_create_fresh by done.
    eexists. split; [reflexivity|]. split; [exact Hfreelancer|].
    split; [|done]. by apply ClientProfile_filter_created.
  - by exists st.
Qed.

Lemma create_user_profile_by_role_witness :
  ∃ st1 : Profiles.t,
    signals.create_user_profile alice (User.mk "alice" true true)
      "alice@example.org" true no_profiles
    = (Return tt, st1)
    ∧ FreelancerProfile_objects_filter_user alice st1
      = (if User.is_freelancer (User.mk "alice" true true)
         then {[next_pk (Profiles.freelancer_profiles no_profiles)
                := FreelancerProfile.mk alice "" "" 0 true]}
         else ∅)
    ∧ ClientProfile_objects_filter_user alice st1
      = (if negb (User.is_freelancer (User.mk "alice" true true))
            && User.is_client (User.mk "alice" true true)
         then {[next_pk (Profiles.client_profiles no_profiles)
                := ClientProfile.mk alice
                     (User.username (User.mk "alice" true true)) ""
                     "alice@example.org"]}
         else ∅)
    ∧ signals.create_user_profile alice (User.mk "alice" true true)
        "alice@example.org" false no_profiles
      = (Return tt, no_profiles).
Proof.
  apply (create_user_profile_by_role alice (User.mk "alice" true true)
           "alice@example.org" no_profiles).
  - vm_compute. reflexivity.
  - vm_compute. reflexivity.
Defined.

(** X18: the receiver and the views agree, and the views check no role.
    After [create_user_profile] has run for a new user with the client flag
    alone, the client profile view returns the profile the receiver made
    and writes nothing; the freelancer profile view, called by that same
    client, creates a freelancer profile for the user. *)
Theorem profile_views_after_the_receiver
    (req : Request.t) (instance u : User.t) (email email' : string)
    (st : Profiles.t) :
  User.is_freelancer instance = false →
  User.is_client instance = true →
  ClientProfile_objects_filter_user (Request.user req) st = ∅ →
  FreelancerProfile_objects_filter_user (Request.user req) st = ∅ →
  ∃ (k kf : nat) (st1 st2 : Profiles.t),
    signals.create_user_profile (Request.user req) instance email true st
    = (Return tt, st1)
    ∧ views.ClientProfileView_get_object req u email' st1
      = (Return (k, ClientProfile.mk (Request.user req) (User.username instance)
                      "" email), st1)
    ∧ views.FreelancerProfileView_get_object req st1
      = (Return (kf, FreelancerProfile.mk (Request.user req) "" "" 0 true), st2)
    ∧ FreelancerProfile_objects_filter_user (Request.user req) st2
      = {[kf := FreelancerProfile.mk (Request.user req) "" "" 0 true]}
    ∧ ClientProfile_objects_filter_user (Request.user req) st2
      = {[k := ClientProfile.mk (Request.user req) (User.username instance)
                 "" email]}.
Proof.
  intros Hnotfreelancer Hisclient Hclient Hfreelancer.
  unfold signals.create_user_profile. rewrite Hnotfreelancer, Hisclient.
  rewrite ClientProfile_objects_create_fresh by done.
  set (row := ClientProfile.mk (Request.user req) (User.username instance) "" email).
  set (k := next_pk (Profiles.client_profiles st)).
  set (st1 := Profiles.set_client_profiles (insert k row) st).
  assert (ClientProfile_objects_filter_user (Request.user req) st1 = {[k := row]})
    as Hone by (by apply ClientProfile_filter_created).
  exists k, (next_pk (Profiles.freelancer_profiles st1)), st1.
  eexists. split; [reflexivity|].
  split; [by apply ClientProfileView_get_object_found|].
  split; [by apply FreelancerProfileView_get_object_created|].
  split; [by apply FreelancerProfile_filter_created|].
  exact Hone.
Qed.

Lemma profile_views_after_the_receiver_witness :
  ∃ (k kf : nat) (st1 st2 : Profiles.t),
    signals.create_user_profile (Request.user (Request.mk alice))
      (User.mk "alice" true false) "alice@example.org" true no_profiles
    = (Return tt, st1)
    ∧ views.ClientProfileView_get_object (Request.mk alice)
        (User.mk "alice" true false) "alice@example.org" st1
      = (Return (k, ClientProfile.mk (Request.user (Request.mk alice))
                      (User.username (User.mk "alice" true false))
                      "" "alice@example.org"), st1)
    ∧ views.FreelancerProfileView_get_object (Request.mk alice) st1
      = (Return (kf, FreelancerProfile.mk (Request.user (Request.mk alice))
                       "" "" 0 true), st2)
    ∧ FreelancerProfile_objects_filter_user (Request.user (Request.mk alice)) st2
      = {[kf := FreelancerProfile.mk (Request.user (Request.mk alice)) "" "" 0 true]}
    ∧ ClientProfile_objects_filter_user (Request.user (Request.mk alice)) st2
      = {[k := ClientProfile.mk (Request.user (Request.mk alice))
                 (User.username (User.mk "alice" true false))
                 "" "alice@example.org"]}.
Proof.
  apply (profile_views_after_the_receiver (Request.mk alice)
           (User.mk "alice" true false) (User.mk "alice" true false)
           "alice@example.org" "alice@example.org" no_profiles).
  - reflexivity.
  - reflexivity.
  - vm_compute. reflexivity.
  - vm_compute. reflexivity.
Defined.

(** ** Who sees a new proposal and a new contract *)

(** X19: who finds a submitted proposal in the proposal queryset.  A user
    with the client flag finds it exactly when that user is the client of
    the project; a user with the freelancer flag and no client flag finds it
    exactly when that user submitted it; a user with neither flag never
    does.  So a submitter without the freelancer flag, or with the client
    flag, does not see the proposal just submitted unless the project is
    the submitter's own. *)
Theorem who_sees_a_submitted_proposal
    (si : bool) (req : Request.t) (data : views.ProposalData) (pr : Project.t)
    (db : DB.t) :
  DB.projects db !! views.data_project data = Some pr →
  default "Pending" (views.data_status data) ≠ "Accepted" →
  ∃ (pk : nat) (db1 : DB.t),
    views.ProposalViewSet_perform_create si req data db = (Return pk, db1)
    ∧ ∀ (reader : Request.t) (ur : User.t),
        views.ProposalViewSet_get_queryset reader ur db1 !! pk
        = if User.is_client ur
          then (if decide (Project.client pr = Request.user reader)
                then Some (submitted_proposal req data) else None)
          else if User.is_freelancer ur
               then (if decide (Request.user req = Request.user reader)
                     then Some (submitted_proposal req data) else None)
               else None.
Proof.
  intros Hpr Hs. eexists _, _.
  split; [by apply (ProposalViewSet_perform_create_spec si req data pr db)|].
  intros reader ur. unfold views.ProposalViewSet_get_queryset. cbn.
  destruct (User.is_client ur); [|destruct (User.is_freelancer ur)].
  - rewrite map_lookup_filter, lookup_insert_eq. cbn. rewrite Hpr. cbn.
    case_guard; try case_decide; cbn; first [done | congruence].
  - rewrite map_lookup_filter, lookup_insert_eq. cbn.
    case_guard; try case_decide; cbn; first [done | congruence].
  - apply lookup_empty.
Qed.

Lemma who_sees_a_submitted_proposal_witness :
  ∃ (pk : nat) (db1 : DB.t),
    views.ProposalViewSet_perform_create true (Request.mk carol)
      (views.Build_ProposalData 1 "I can help too" 12000 None) example_db
    = (Return pk, db1)
    ∧ ∀ (reader : Request.t) (ur : User.t),
        views.ProposalViewSet_get_queryset reader ur db1 !! pk
        = if User.is_client ur
          then (if decide (Project.client (Project.mk alice "Site")
                           = Request.user reader)
                then Some (submitted_proposal (Request.mk carol)
                             (views.Build_ProposalData 1 "I can help too" 12000 None))
                else None)
          else if User.is_freelancer ur
               then (if decide (Request.user (Request.mk carol) = Request.user reader)
                     then Some (submitted_proposal (Request.mk carol)
                                  (views.Build_ProposalData 1 "I can help too"
                                     12000 None))
                     else None)
               else None.
Proof.
  apply (who_sees_a_submitted_proposal true (Request.mk carol)
           (views.Build_ProposalData 1 "I can help too" 12000 None)
           (Project.mk alice "Site") example_db).
  - reflexivity.
  - vm_compute. discriminate.
Defined.

(** X20: who finds the contract that [accept] creates in the contract
    queryset.  A user with the client flag finds it exactly when that user
    is the project's client; a user with the freelancer flag and no client
    flag finds it exactly when that user is the proposal's freelancer; so a
    freelancer who also has the client flag does not see the contract. *)
Theorem who_sees_an_accepted_contract
    (si : bool) (req : Request.t) (u : User.t) (pk : nat) (p : Proposal.t)
    (pr : Project.t) (db : DB.t) :
  DB.users db !! Request.user req = Some u →
  views.ProposalViewSet_get_queryset req u db !! pk = Some p →
  DB.projects db !! Proposal.project p = Some pr →
  Project.client pr = Request.user req →
  Proposal.status p = "Pending" →
  Contract_objects_filter_proposal pk db = ∅ →
  ∃ (k : nat) (db1 : DB.t),
    views.ProposalViewSet_accept si req pk db
    = (Response.mk (Response.accepted "Proposal accepted" k) status.HTTP_200_OK, db1)
    ∧ ∀ (reader : Request.t) (ur : User.t),
        views.ContractViewSet_get_queryset reader ur db1 !! k
        = if User.is_client ur
          then (if decide (Project.client pr = Request.user reader)
                then Some (Contract.mk pk (Project.client pr) (Proposal.freelancer p)
                             (Proposal.bid_amount p) "Active" None None)
                else None)
          else if User.is_freelancer ur
               then (if decide (Proposal.freelancer p = Request.user reader)
                     then Some (Contract.mk pk (Project.client pr)
                                  (Proposal.freelancer p) (Proposal.bid_amount p)
                                  "Active" None None)
                     else None)
               else None.
Proof.
  intros Hu Hqs Hpr Hclient Hs Hnone. eexists _, _.
  split; [by apply (accept_creates si req u pk p pr db)|].
  intros reader ur. unfold views.ContractViewSet_get_queryset. cbn.
  destruct (User.is_client ur); [|destruct (User.is_freelancer ur)].
  - rewrite map_lookup_filter, lookup_insert_eq. cbn.
    case_guard; try case_decide; cbn; first [done | congruence].
  - rewrite map_lookup_filter, lookup_insert_eq. cbn.
    case_guard; try case_decide; cbn; first [done | congruence].
  - apply lookup_empty.
Qed.

Lemma who_sees_an_accepted_contract_witness :
  ∃ (k : nat) (db1 : DB.t),
    views.ProposalViewSet_accept true (Request.mk alice) 1 example_db
    = (Response.mk (Response.accepted "Proposal accepted" k) status.HTTP_200_OK, db1)
    ∧ ∀ (reader : Request.t) (ur : User.t),
        views.ContractViewSet_get_queryset reader ur db1 !! k
        = if User.is_client ur
          then (if decide (Project.client (Project.mk alice "Site")
                           = Request.user reader)
                then Some (Contract.mk 1 alice bob 10000 "Active" None None)
                else None)
          else if User.is_freelancer ur
               then (if decide (bob = Request.user reader)
                     then Some (Contract.mk 1 alice bob 10000 "Active" None None)
                     else None)
               else None.
Proof.
  apply (who_sees_an_accepted_contract true (Request.mk alice)
           (User.mk "alice" true false) 1
           (Proposal.mk 1 bob "I can do it" 10000 "Pending")
           (Project.mk alice "Site") example_db).
  - reflexivity.
  - vm_compute. reflexivity.
  - reflexivity.
  - reflexivity.
  - reflexivity.
  - vm_compute. reflexivity.
Defined.

(** ** From submission to completion *)

(** X21: the whole cascade.  A proposal is submitted without a status on a
    project whose client has the client flag, the client accepts it and
    then marks the contract completed: each step succeeds, the contract
    ends "Completed" with the submitted bid as payment, and five
    notifications have been created in all, two addressed to the client
    (the submission and the completion) and three to the submitter (the
    acceptance and the completion twice). *)
Theorem submit_accept_complete
    (si : bool) (req : Request.t) (data : views.ProposalData) (pr : Project.t)
    (uc : User.t) (db : DB.t) :
  DB.projects db !! views.data_project data = Some pr →
  views.data_status data = None →
  DB.users db !! Project.client pr = Some uc →
  User.is_client uc = true →
  Contract_objects_filter_proposal (next_pk (DB.proposals db)) db = ∅ →
  ∃ (pk k : nat) (db1 db2 db3 : DB.t),
    views.ProposalViewSet_perform_create si req data db = (Return pk, db1)
    ∧ views.ProposalViewSet_accept si (Request.mk (Project.client pr)) pk db1
      = (Response.mk (Response.accepted "Proposal accepted" k) status.HTTP_200_OK,
         db2)
    ∧ views.ContractViewSet_mark_completed (Request.mk (Project.client pr)) k db2
      = (Response.mk
           (Response.contract_data k
              (Contract.mk pk (Project.client pr) (Request.user req)
                 (views.data_bid_amount data) "Completed" None None))
           status.HTTP_200_OK, db3)
    ∧ DB.contracts db3 !! k
      = Some (Contract.mk pk (Project.client pr) (Request.user req)
                (views.data_bid_amount data) "Completed" None None)
    ∧ size (DB.notifications db3) = size (DB.notifications db) + 5
    ∧ ∀ x : nat,
        addressed_to x db3
        = addressed_to x db
          + (if decide (Project.client pr = x) then 2 else 0)
          + (if decide (Request.user req = x) then 3 else 0).
Proof.
  intros Hpr Hstatus Huc Hflag Hnone.
  set (pk := next_pk (DB.proposals db)).
  set (p := submitted_proposal req data).
  set (db1 := notify (proposal_notice (views.data_project data) pr)
                (DB.set_proposals (insert pk p) db)).
  assert (Proposal.status p = "Pending") as Hpending.
  { unfold p, submitted_proposal. cbn. by rewrite Hstatus. }
  set (p' := Proposal.set_status "Accepted" p).
  set (k := next_pk (DB.contracts db1)).
  set (c := new_contract pk p' pr).
  set (db2 := notify (acceptance_notification p pr k)
                (DB.set_contracts (insert k c) (DB.set_proposals (insert pk p') db1))).
  exists pk, k, db1, db2. eexists.
  split.
  { apply (ProposalViewSet_perform_create_spec si req data pr db Hpr).
    rewrite Hstatus. discriminate. }
  split.
  { apply (accept_creates si (Request.mk (Project.client pr)) uc pk p pr db1).
    - exact Huc.
    - unfold views.ProposalViewSet_get_queryset. rewrite Hflag.
      apply map_lookup_filter_Some. split.
      + cbn. apply lookup_insert_eq.
      + cbn. by rewrite Hpr.
    - exact Hpr.
    - reflexivity.
    - exact Hpending.
    - exact Hnone. }
  split.
  { apply (mark_completed_completes (Request.mk (Project.client pr)) uc k c p' pr db2).
    - exact Huc.
    - cbn. apply lookup_insert_eq.
    - discriminate.
    - cbn. apply lookup_insert_eq.
    - exact Hpr. }
  split; [cbn; apply lookup_insert_eq|].
  split.
  - rewrite !size_notifications_notify. cbn.
    rewrite map_size_insert_None by apply next_pk_fresh.
    rewrite map_size_insert_None by apply next_pk_fresh. lia.
  - intros x. rewrite !addressed_to_notify, addressed_to_set_contracts.
    unfold db2. rewrite addressed_to_notify, addressed_to_set_contracts.
    change (addressed_to x (DB.set_proposals (insert pk p') db1))
      with (addressed_to x db1).
    unfold db1. rewrite addressed_to_notify.
    change (addressed_to x (DB.set_proposals (insert pk p) db))
      with (addressed_to x db).
    cbn. repeat case_decide; lia.
Qed.

Lemma submit_accept_complete_witness :
  ∃ (pk k : nat) (db1 db2 db3 : DB.t),
    views.ProposalViewSet_perform_create true (Request.mk dave)
      (views.Build_ProposalData 1 "Mine is cheaper" 9000 None) example_db
    = (Return pk, db1)
    ∧ views.ProposalViewSet_accept true (Request.mk alice) pk db1
      = (Response.mk (Response.accepted "Proposal accepted" k) status.HTTP_200_OK,
         db2)
    ∧ views.ContractViewSet_mark_completed (Request.mk alice) k db2
      = (Response.mk
           (Response.contract_data k
              (Contract.mk pk alice dave 9000 "Completed" None None))
           status.HTTP_200_OK, db3)
    ∧ DB.contracts db3 !! k
      = Some (Contract.mk pk alice dave 9000 "Completed" None None)
    ∧ size (DB.notifications db3) = size (DB.notifications example_db) + 5
    ∧ ∀ x : nat,
        addressed_to x db3
        = addressed_to x example_db
          + (if decide (alice = x) then 2 else 0)
          + (if decide (dave = x) then 3 else 0).
Proof.
  apply (submit_accept_complete true (Request.mk dave)
           (views.Build_ProposalData 1 "Mine is cheaper" 9000 None)
           (Project.mk alice "Site") (User.mk "alice" true false) example_db).
  - reflexivity.
  - reflexivity.
  - reflexivity.
  - reflexivity.
  - vm_compute. reflexivity.
Defined.
